(** * NOSIS desktop client: the realtime generation session layer

    A shallow embedding of
      - [desktop_gui/core/app_state.py]   (the session state store),
      - [desktop_gui/core/signals.py]     (the signal bus, as an emission log),
      - [desktop_gui/bridge/ws_client.py] (the realtime channel's handler),
      - [desktop_gui/bridge/grpc_client.py] (the streaming job client),
      - [desktop_gui/bridge/api_client.py] and
        [desktop_gui/bridge/auth_bridge.py] (the credential refresh loop),
    and the properties of the session layer stated over it.

    Python [float] is IEEE 754 binary64, which is Rocq's primitive [float];
    [str] is [string]; [Optional[T]] is [option T]; a frozen dataclass is a
    record. *)

From Stdlib Require Import List String ZArith Bool Lia.
From Stdlib Require Import PrimFloat.
Import ListNotations.

Local Open Scope string_scope.
Local Open Scope list_scope.

Set Warnings "-register-all,-inexact-float".

(* ================================================================== *)
(** * Python values *)
(* ================================================================== *)

(** The dynamically typed values that cross the wire: what [json.loads]
    returns for a frame, the dict-shaped messages of the job stream and the
    decoded body of an HTTP response.  A dict is kept as an association
    list; [dict_get] returns the first binding of a key. *)
Inductive pyval : Type :=
| PNone
| PBool (b : bool)
| PInt (z : Z)
| PFloat (f : float)
| PStr (s : string)
| PBytes (s : string)
| PList (l : list pyval)
| PDict (d : list (string * pyval)).

Fixpoint dict_get (d : list (string * pyval)) (key : string) : option pyval :=
  match d with
  | [] => None
  | (k, v) :: rest => if String.eqb k key then Some v else dict_get rest key
  end.

(** [v == s] for a string literal [s]. *)
Definition is_str (v : pyval) (s : string) : bool :=
  match v with
  | PStr t => String.eqb t s
  | _ => false
  end.

(** Python truthiness, as [if not x] tests it. *)
Definition truthy (v : pyval) : bool :=
  match v with
  | PNone => false
  | PBool b => b
  | PInt z => negb (Z.eqb z 0)
  | PFloat f => negb (PrimFloat.eqb f 0)
  | PStr s => negb (String.eqb s "")
  | PBytes s => negb (String.eqb s "")
  | PList l => match l with [] => false | _ => true end
  | PDict d => match d with [] => false | _ => true end
  end.

(** Exceptions, named by where they are raised.  [CancelledError] is not one
    of them: it derives from [BaseException] and no [except Exception]
    catches it, so it is a separate outcome below. *)
Inductive Exception : Type :=
| RuntimeError (arg : pyval)          (* [raise RuntimeError(arg)] *)
| AttributeError (obj : pyval)        (* [obj.get(...)] on an object that is no dict *)
| FloatError (arg : pyval)            (* [float(arg)] refused its argument *)
| EmitTypeError (arg : pyval)         (* a typed signal refused the argument of [emit] *)
| HTTPStatusError (text : string)     (* [response.raise_for_status()] *)
| RequestError (text : string)        (* [httpx.RequestError] *)
| BodyError (text : string)           (* [response.json()] *)
| LoadsError (text : string).         (* [json.loads] raised, and not [JSONDecodeError] *)

Inductive Outcome (A : Type) : Type :=
| Return (a : A)
| Raise (e : Exception)
| CancelledError.
Arguments Return {A} a.
Arguments Raise {A} e.
Arguments CancelledError {A}.

(** [obj.get(key, default)] *)
Definition py_get (obj : pyval) (key : string) (default : pyval) : Outcome pyval :=
  match obj with
  | PDict d =>
      match dict_get d key with
      | Some v => Return v
      | None => Return default
      end
  | _ => Raise (AttributeError obj)
  end.

(* ================================================================== *)
(** * State domain models ([core/app_state.py]) *)
(* ================================================================== *)

Module AppState.

(** [@dataclass(frozen=True) class UserState] *)
Record UserState := mkUserState {
  user_id : option string;
  username : option string;
  plan : string;
  authenticated : bool
}.

(** [@dataclass(frozen=True) class ProjectState] *)
Record ProjectState := mkProjectState {
  project_id : option string;
  title : string;
  dirty : bool;
  mode : string
}.

(** [@dataclass(frozen=True) class GenerationState] *)
Record GenerationState := mkGenerationState {
  in_progress : bool;
  progress : float;
  last_error : option string
}.

(** [@dataclass(frozen=True) class BackendState] *)
Record BackendState := mkBackendState {
  connected : bool;
  latency_ms : option Z
}.

(** [@dataclass(frozen=True) class UIFlags] *)
Record UIFlags := mkUIFlags {
  dark_mode : bool;
  sidebar_collapsed : bool;
  inspector_visible : bool
}.

(** The dataclass defaults. *)
Definition UserState_default : UserState :=
  mkUserState None None "free" false.
Definition ProjectState_default : ProjectState :=
  mkProjectState None "Untitled Project" false "simple".
Definition GenerationState_default : GenerationState :=
  mkGenerationState false 0%float None.
Definition BackendState_default : BackendState :=
  mkBackendState false None.
Definition UIFlags_default : UIFlags :=
  mkUIFlags true false true.

(** The five snapshots an [AppState] object holds ([self._user], ...). *)
Record t := mk {
  user : UserState;
  project : ProjectState;
  generation : GenerationState;
  backend : BackendState;
  ui_flags : UIFlags
}.

(** [AppState.__init__] *)
Definition init : t :=
  mk UserState_default ProjectState_default GenerationState_default
     BackendState_default UIFlags_default.

End AppState.

(* ================================================================== *)
(** * The signal bus ([core/signals.py]) and the process state *)
(* ================================================================== *)

(** What [AppState.state_changed] carries next to the domain name. *)
Inductive Snapshot : Type :=
| SnapUser (u : AppState.UserState)
| SnapGeneration (g : AppState.GenerationState).

(** One constructor per signal the session layer emits: those of
    [UISignals] and the granular and generic signals of [AppState].  Slots
    are the UI's (status bar, generate button, side bar): they repaint and
    never write to [AppState], so an emission is recorded and nothing
    else. *)
Inductive Signal : Type :=
| generation_started
| generation_progress (value : float)
| generation_preview (data : pyval)
| generation_finished (result : pyval)
| generation_failed (error : string)
| generation_failed_none               (* [generation_failed.emit(None)] *)
| generation_cancelled
| backend_connected
| backend_disconnected
| backend_latency_updated (ms : Z)
| backend_error (text : string)
| user_logged_out
| user_changed (u : AppState.UserState)
| generation_changed (g : AppState.GenerationState)
| state_changed (domain : string) (payload : Snapshot).

(** A request handed to [httpx.AsyncClient.request] by [APIClient._request]. *)
Record Request := mkRequest {
  req_method : string;
  req_path : string;
  req_json : option pyval;
  req_authorized : bool          (* [_build_headers] added [Authorization] *)
}.

(** The objects behind the module-level singletons: the [AppState]
    ([get_app_state()]), the emissions seen on the bus in order of time
    ([get_signals()]), and the private fields of [GRPCGenerationClient],
    [AuthBridge] and the [APIClient]'s transport. *)
Inductive Channel : Type :=
| NoChannel          (* [_channel is None], [_connected] false *)
| ChannelIdle        (* a channel handle, [_connected] false *)
| ChannelReady.      (* a channel handle, [_connected] true *)

Record World := mkWorld {
  app : AppState.t;
  emitted : list Signal;
  grpc_channel : Channel;        (* [GRPCGenerationClient._channel] and [._connected] *)
  access_token : pyval;          (* [AuthBridge._access_token] *)
  refresh_token : pyval;         (* [AuthBridge._refresh_token] *)
  refresh_task : bool;           (* [AuthBridge._refresh_task is not None] *)
  requests : list Request        (* requests sent so far, oldest first *)
}.

Definition world0 : World :=
  mkWorld AppState.init [] NoChannel PNone PNone false [].

(** [GRPCGenerationClient._connected] *)
Definition grpc_connected (w : World) : bool :=
  match grpc_channel w with
  | ChannelReady => true
  | _ => false
  end.

Definition with_app (a : AppState.t) (w : World) : World :=
  mkWorld a (emitted w) (grpc_channel w) (access_token w)
          (refresh_token w) (refresh_task w) (requests w).

(** [signal.emit(...)] *)
Definition emit (s : Signal) (w : World) : World :=
  mkWorld (app w) (emitted w ++ [s]) (grpc_channel w) (access_token w)
          (refresh_token w) (refresh_task w) (requests w).

Definition with_grpc_channel (c : Channel) (w : World) : World :=
  mkWorld (app w) (emitted w) c (access_token w)
          (refresh_token w) (refresh_task w) (requests w).

(** [self._connected = b]; the channel handle stays. *)
Definition with_grpc_connected (b : bool) (w : World) : World :=
  with_grpc_channel
    (if b then ChannelReady
     else match grpc_channel w with
          | NoChannel => NoChannel
          | _ => ChannelIdle
          end) w.

Definition with_access_token (v : pyval) (w : World) : World :=
  mkWorld (app w) (emitted w) (grpc_channel w) v
          (refresh_token w) (refresh_task w) (requests w).

Definition with_refresh_token (v : pyval) (w : World) : World :=
  mkWorld (app w) (emitted w) (grpc_channel w) (access_token w)
          v (refresh_task w) (requests w).

Definition with_refresh_task (b : bool) (w : World) : World :=
  mkWorld (app w) (emitted w) (grpc_channel w) (access_token w)
          (refresh_token w) b (requests w).

Definition send (r : Request) (w : World) : World :=
  mkWorld (app w) (emitted w) (grpc_channel w) (access_token w)
          (refresh_token w) (refresh_task w) (requests w ++ [r]).

(** ** The update API of [AppState] *)

(** The keyword arguments of [set_generation]: a field is [Some] when the
    call names it.  [{**self._generation.__dict__, **kwargs}] keeps the old
    value of a field the call does not name. *)
Record GenerationKwargs := mkGenerationKwargs {
  kw_in_progress : option bool;
  kw_progress : option float;
  kw_last_error : option (option string)
}.

Definition keep {A : Type} (kw : option A) (old : A) : A :=
  match kw with
  | Some v => v
  | None => old
  end.

Definition GenerationState_merge (g : AppState.GenerationState)
    (kw : GenerationKwargs) : AppState.GenerationState :=
  AppState.mkGenerationState
    (keep (kw_in_progress kw) (AppState.in_progress g))
    (keep (kw_progress kw) (AppState.progress g))
    (keep (kw_last_error kw) (AppState.last_error g)).

Definition with_generation (g : AppState.GenerationState) (a : AppState.t)
    : AppState.t :=
  AppState.mk (AppState.user a) (AppState.project a) g
              (AppState.backend a) (AppState.ui_flags a).

(** [AppState.set_generation] *)
Definition set_generation (kw : GenerationKwargs) (w : World) : World :=
  let g := GenerationState_merge (AppState.generation (app w)) kw in
  let w1 := with_app (with_generation g (app w)) w in
  let w2 := emit (generation_changed (AppState.generation (app w1))) w1 in
  emit (state_changed "generation" (SnapGeneration (AppState.generation (app w2)))) w2.

(** [AppState.start_generation] *)
Definition start_generation (w : World) : World :=
  set_generation (mkGenerationKwargs (Some true) (Some 0%float) (Some None)) w.

(** [AppState.update_generation_progress] *)
Definition update_generation_progress (value : float) (w : World) : World :=
  set_generation (mkGenerationKwargs None (Some value) None) w.

(** [AppState.finish_generation] *)
Definition finish_generation (w : World) : World :=
  set_generation (mkGenerationKwargs (Some false) (Some 1%float) None) w.

(** [AppState.fail_generation] *)
Definition fail_generation (error : string) (w : World) : World :=
  set_generation (mkGenerationKwargs (Some false) None (Some (Some error))) w.

(** [AppState.fail_generation] on the value a caller hands over, which is
    [None] where the caller got one: [fail_generation_value (Some e)] is
    [fail_generation e]. *)
Definition fail_generation_value (error : option string) (w : World) : World :=
  set_generation (mkGenerationKwargs (Some false) None (Some error)) w.

(** The keyword arguments of [set_user]. *)
Record UserKwargs := mkUserKwargs {
  kw_user_id : option (option string);
  kw_username : option (option string);
  kw_plan : option string;
  kw_authenticated : option bool
}.

Definition UserState_merge (u : AppState.UserState) (kw : UserKwargs)
    : AppState.UserState :=
  AppState.mkUserState
    (keep (kw_user_id kw) (AppState.user_id u))
    (keep (kw_username kw) (AppState.username u))
    (keep (kw_plan kw) (AppState.plan u))
    (keep (kw_authenticated kw) (AppState.authenticated u)).

Definition with_user (u : AppState.UserState) (a : AppState.t) : AppState.t :=
  AppState.mk u (AppState.project a) (AppState.generation a)
              (AppState.backend a) (AppState.ui_flags a).

(** [AppState.set_user] *)
Definition set_user (kw : UserKwargs) (w : World) : World :=
  let u := UserState_merge (AppState.user (app w)) kw in
  let w1 := with_app (with_user u (app w)) w in
  let w2 := emit (user_changed (AppState.user (app w1))) w1 in
  emit (state_changed "user" (SnapUser (AppState.user (app w2)))) w2.

(* ================================================================== *)
(** * Code that raises *)
(* ================================================================== *)

(** A call runs on the process state and returns, raises or is cancelled;
    what it wrote before raising stays written. *)
Definition M (A : Type) : Type := World -> Outcome A * World.

Definition ret {A : Type} (a : A) : M A := fun w => (Return a, w).

Definition bind {A B : Type} (m : M A) (k : A -> M B) : M B :=
  fun w =>
    match m w with
    | (Return a, w1) => k a w1
    | (Raise e, w1) => (Raise e, w1)
    | (CancelledError, w1) => (CancelledError, w1)
    end.

Definition lift {A : Type} (o : Outcome A) : M A := fun w => (o, w).

Definition act (f : World -> World) : M unit := fun w => (Return tt, f w).

Declare Scope py_scope.
Delimit Scope py_scope with py.
Notation "x <- m ;; k" := (bind m (fun x => k))
  (at level 61, m at next level, right associativity) : py_scope.
Notation "m ;;; k" := (bind m (fun _ => k))
  (at level 61, right associativity) : py_scope.

(** A signal declared with a Python type checks the argument of [emit]:
    [pyqtSignal(str)] takes a [str] and, as a null string, [None];
    [pyqtSignal(dict)] takes a [dict].  [emit_str] returns what was
    emitted, [None] for [None]. *)
Definition emit_str (sig : string -> Signal) (sig_none : Signal) (arg : pyval)
    : M (option string) :=
  match arg with
  | PStr s => fun w => (Return (Some s), emit (sig s) w)
  | PNone => fun w => (Return None, emit sig_none w)
  | _ => lift (Raise (EmitTypeError arg))
  end.

Definition emit_dict (sig : pyval -> Signal) (arg : pyval) : M unit :=
  match arg with
  | PDict _ => act (emit (sig arg))
  | _ => lift (Raise (EmitTypeError arg))
  end.

(* ================================================================== *)
(** * The transports ([bridge/ws_client.py], [bridge/grpc_client.py]) *)
(* ================================================================== *)

(** An item of the job stream as [generate] meets it: a suspension ([await
    asyncio.sleep]) or a message handed to the loop body. *)
Inductive StreamItem : Type :=
| Sleep
| Yield (message : pyval).

(** A [generate] coroutine between two runs of the event loop. *)
Inductive GenTask : Type :=
| AwaitChannelReady (request : pyval)   (* in [connect], at [channel_ready()] *)
| AwaitStream (rest : list StreamItem)  (* in the stream, at a sleep; [rest] follows it *)
| Finished (o : Outcome pyval).

(** How the event loop wakes a suspended coroutine: the awaited thing is
    done, it raised, or the task was cancelled. *)
Inductive Wake : Type :=
| Resume
| Throw (e : Exception)
| Cancel.

(** What [json.loads(raw)] does on a frame: it returns a value, it raises
    [JSONDecodeError] (text that is no JSON), or it raises something else
    ([ValueError] on an integer beyond the digit limit, [RecursionError],
    [UnicodeDecodeError] on a binary frame). *)
Inductive Loads : Type :=
| Decoded (data : pyval)
| JSONDecodeError
| LoadsFailed (text : string).

(** Where [_run_generation_stream] stands after running as far as it can. *)
Inductive StreamStep : Type :=
| Suspended (rest : list StreamItem)
| Ended (o : Outcome pyval).

Section Builtins.

(** Python's [float] on an [int] and on text, [None] when it raises
    ([OverflowError], [ValueError]), and [str] on an exception. *)
Variable float_of_int : Z -> option float.
Variable float_of_text : string -> option float.
Variable str_exc : Exception -> string.

Local Open Scope py_scope.

(** [float(v)] *)
Definition py_float (v : pyval) : Outcome float :=
  match v with
  | PFloat f => Return f
  | PBool b => Return (if b then 1%float else 0%float)
  | PInt z =>
      match float_of_int z with
      | Some f => Return f
      | None => Raise (FloatError v)
      end
  | PStr s | PBytes s =>
      match float_of_text s with
      | Some f => Return f
      | None => Raise (FloatError v)
      end
  | PNone | PList _ | PDict _ => Raise (FloatError v)
  end.

(** [WebSocketClient._handle_message], on the outcome of [json.loads(raw)]:
    a [JSONDecodeError] is caught, any other exception goes to the
    caller. *)
Definition _handle_message (parsed : Loads) : M unit :=
  match parsed with
  | JSONDecodeError => ret tt
  | LoadsFailed text => lift (Raise (LoadsError text))
  | Decoded data =>
      msg_type <- lift (py_get data "type" PNone) ;;
      if is_str msg_type "progress" then
        v <- lift (py_get data "value" (PFloat 0%float)) ;;
        value <- lift (py_float v) ;;
        act (emit (generation_progress value)) ;;;
        act (update_generation_progress value)
      else if is_str msg_type "preview" then
        d <- lift (py_get data "data" (PDict [])) ;;
        emit_dict generation_preview d
      else if is_str msg_type "status" then
        ret tt
      else if is_str msg_type "error" then
        error <- lift (py_get data "error" (PStr "Unknown error")) ;;
        e <- emit_str generation_failed generation_failed_none error ;;
        act (fail_generation_value e)
      else if is_str msg_type "completed" then
        emit_dict generation_finished data ;;;
        act finish_generation
      else ret tt
  end.

(** [GRPCGenerationClient._handle_stream_message] *)
Definition _handle_stream_message (message : pyval) : M unit :=
  msg_type <- lift (py_get message "type" PNone) ;;
  if is_str msg_type "progress" then
    v <- lift (py_get message "value" (PFloat 0%float)) ;;
    value <- lift (py_float v) ;;
    act (emit (generation_progress value)) ;;;
    act (update_generation_progress value)
  else if is_str msg_type "preview" then
    d <- lift (py_get message "data" (PDict [])) ;;
    emit_dict generation_preview d
  else if is_str msg_type "error" then
    arg <- lift (py_get message "error" PNone) ;;
    lift (Raise (RuntimeError arg))
  else ret tt.

(** [GRPCGenerationClient._fake_stream]: ten times a sleep and a progress
    message of value [i / 10.0], then a preview. *)
Definition _fake_stream (request : pyval) : list StreamItem :=
  flat_map
    (fun i => [Sleep;
               Yield (PDict [("type", PStr "progress");
                             ("value", PFloat (i / 10)%float)])])
    [1; 2; 3; 4; 5; 6; 7; 8; 9; 10]%float
  ++ [Yield (PDict [("type", PStr "preview");
                    ("data", PDict [("audio_chunk", PBytes "...")])])].

(** [GRPCGenerationClient._run_generation_stream], from the items not yet
    consumed: the [async for] hands each message to
    [_handle_stream_message] and the final metadata is returned when the
    stream ends. *)
Fixpoint _run_generation_stream (items : list StreamItem) (w : World)
    : StreamStep * World :=
  match items with
  | [] =>
      (Ended (Return (PDict [("status", PStr "completed");
                             ("tracks", PList []);
                             ("metadata", PDict [])])), w)
  | Sleep :: rest => (Suspended rest, w)
  | Yield message :: rest =>
      match _handle_stream_message message w with
      | (Return _, w1) => _run_generation_stream rest w1
      | (Raise e, w1) => (Ended (Raise e), w1)
      | (CancelledError, w1) => (Ended CancelledError, w1)
      end
  end.

(** The [try] of [generate] around the stream, with its three exits. *)
Definition generate_try (s : StreamStep * World) : GenTask * World :=
  match s with
  | (Suspended rest, w) => (AwaitStream rest, w)
  | (Ended (Return result), w) =>
      (Finished (Return result),
       finish_generation (emit (generation_finished result) w))
  | (Ended CancelledError, w) =>
      (Finished CancelledError, emit generation_cancelled w)
  | (Ended (Raise exc), w) =>
      (Finished (Raise exc),
       fail_generation (str_exc exc) (emit (generation_failed (str_exc exc)) w))
  end.

(** [generate] after [await self.connect()]. *)
Definition generate_connected (request : pyval) (w : World) : GenTask * World :=
  generate_try
    (_run_generation_stream (_fake_stream request)
       (start_generation (emit generation_started w))).

(** [GRPCGenerationClient.generate], from the call to its first
    suspension: [connect] returns at once on a connected client; otherwise
    it makes the channel handle and waits for [channel_ready()]. *)
Definition generate (request : pyval) (w : World) : GenTask * World :=
  if grpc_connected w then generate_connected request w
  else (AwaitChannelReady request, with_grpc_channel ChannelIdle w).

(** The event loop wakes the coroutine, which runs to its next suspension
    or to its end. *)
Definition generate_wake (k : Wake) (t : GenTask) (w : World) : GenTask * World :=
  match t with
  | AwaitChannelReady request =>
      match k with
      | Resume =>
          generate_connected request
            (emit backend_connected (with_grpc_connected true w))
      | Throw e => (Finished (Raise e), w)
      | Cancel => (Finished CancelledError, w)
      end
  | AwaitStream rest =>
      match k with
      | Resume => generate_try (_run_generation_stream rest w)
      | Throw e => generate_try (Ended (Raise e), w)
      | Cancel => generate_try (Ended CancelledError, w)
      end
  | Finished o => (Finished o, w)
  end.

End Builtins.

(* ================================================================== *)
(** * Credentials ([bridge/api_client.py], [bridge/auth_bridge.py]) *)
(* ================================================================== *)

(** What the backend and the transport do to one request. *)
Inductive HttpOutcome : Type :=
| HttpOk (ms : Z) (body : pyval)            (* a 2xx response with a JSON body *)
| HttpStatus (ms : Z) (text : string)       (* [raise_for_status()] raised; [text] is [str(exc)] *)
| HttpRequestFailed (text : string)         (* [client.request] raised [RequestError] *)
| HttpBadBody (ms : Z) (text : string)      (* [response.json()] raised *)
| HttpCancelled.                            (* the task was cancelled at the await *)

(** [APIClient._request] *)
Definition _request (method path : string) (json : option pyval)
    (o : HttpOutcome) : M pyval :=
  fun w =>
    let w1 :=
      send (mkRequest method path json
              (AppState.authenticated (AppState.user (app w)))) w in
    match o with
    | HttpOk ms body =>
        (Return body, emit (backend_latency_updated ms) w1)
    | HttpStatus ms text =>
        (Raise (HTTPStatusError text),
         emit (backend_error text) (emit (backend_latency_updated ms) w1))
    | HttpRequestFailed text =>
        (Raise (RequestError text), emit backend_disconnected w1)
    | HttpBadBody ms text =>
        (Raise (BodyError text), emit (backend_latency_updated ms) w1)
    | HttpCancelled => (CancelledError, w1)
    end.

(** [AuthBridge._clear_auth_state] *)
Definition _clear_auth_state (w : World) : World :=
  let w1 := with_access_token PNone w in
  let w2 := with_refresh_token PNone w1 in
  let w3 := if refresh_task w2 then with_refresh_task false w2 else w2 in
  set_user (mkUserKwargs None (Some None) (Some "free") (Some false)) w3.

(** One turn of the refresh loop as the outside decides it: the sleep is
    cut short by a cancellation, or it elapses and the backend would answer
    the exchange with [o]. *)
Inductive Cycle : Type :=
| CancelInSleep
| Tick (o : HttpOutcome).

Inductive LoopState : Type :=
| Sleeping         (* suspended in [asyncio.sleep], the script is used up *)
| Exited.          (* the coroutine returned *)

(** [AuthBridge._refresh_loop] *)
Fixpoint _refresh_loop (script : list Cycle) (w : World) : LoopState * World :=
  match script with
  | [] => (Sleeping, w)
  | CancelInSleep :: _ => (Exited, w)
  | Tick o :: rest =>
      if negb (truthy (refresh_token w)) then (Exited, w)
      else
        let exchange :=
          (response <- _request "POST" "/auth/refresh"
                         (Some (PDict [("refresh_token", refresh_token w)])) o ;;
           token <- lift (py_get response "access_token" PNone) ;;
           act (with_access_token token))%py in
        match exchange w with
        | (Return _, w1) => _refresh_loop rest w1
        | (CancelledError, w1) => (Exited, w1)
        | (Raise exc, w1) => (Exited, _clear_auth_state (emit user_logged_out w1))
        end
  end.

(** [AuthBridge._start_token_refresh_loop]: the task is created once. *)
Definition _start_token_refresh_loop (w : World) : World :=
  if refresh_task w then w else with_refresh_task true w.

(* ================================================================== *)
(** * Mutation sequences, runs and counters used in the statements *)
(* ================================================================== *)

(** The four generation mutations of the store, by the names the
    specification gives them. *)
Inductive Mutation : Type :=
| StartGeneration
| UpdateProgress (v : float)
| CompleteGeneration
| FailGeneration (err : string).

Definition apply_mutation (m : Mutation) (w : World) : World :=
  match m with
  | StartGeneration => start_generation w
  | UpdateProgress v => update_generation_progress v w
  | CompleteGeneration => finish_generation w
  | FailGeneration err => fail_generation err w
  end.

Definition run_mutations (ms : list Mutation) (w : World) : World :=
  fold_left (fun acc m => apply_mutation m acc) ms w.






(** Builtins for the concrete runs below.  These runs carry floats only,
    never convert an [int] or a text and record no exception, so the
    choice does not show in them. *)
Definition no_float_of_int : Z -> option float := fun _ => None.
Definition no_float_of_text : string -> option float := fun _ => None.
Definition no_str_exc : Exception -> string := fun _ => "".

(** [n] wake-ups of a coroutine with [Resume]. *)
Fixpoint resume_n (wake : GenTask -> World -> GenTask * World) (n : nat)
    (tw : GenTask * World) : GenTask * World :=
  match n with
  | O => tw
  | S k => let (t, w) := resume_n wake k tw in wake t w
  end.

(** How often [user_logged_out] was emitted. *)
Fixpoint count_logged_out (l : list Signal) : nat :=
  match l with
  | [] => 0
  | user_logged_out :: rest => S (count_logged_out rest)
  | _ :: rest => count_logged_out rest
  end.

(** The exchange step of the refresh loop goes through on a 2xx answer
    whose body is an object; it fails when the request raises or the body
    has no [get]. *)
Definition exchange_succeeds (o : HttpOutcome) : bool :=
  match o with
  | HttpOk _ (PDict _) => true
  | _ => false
  end.

Definition exchange_fails (o : HttpOutcome) : bool :=
  match o with
  | HttpOk _ (PDict _) => false
  | HttpCancelled => false
  | _ => true
  end.

(* ================================================================== *)
(** * The read loop, logout, health check and REST generation *)
(* ================================================================== *)

(** How a session of the realtime channel ends once its frames are read:
    the peer closes and the [async for] runs out, the read raises, or the
    task is cancelled ([stop()]). *)
Inductive SessionEnd : Type :=
| PeerClosed
| ReadFailed
| ReadCancelled.

(** One pass of the [while self._running] loop as the outside decides it. *)
Inductive Attempt : Type :=
| ConnectFailed                        (* [websockets.connect] raised *)
| ConnectCancelled                     (* cancelled while connecting *)
| Session (frames : list Loads) (fin : SessionEnd).

(** A pass, and whether a cancellation cuts the back-off sleep short
    should the pass end in [except Exception]. *)
Record Turn := mkTurn {
  attempt : Attempt;
  nap_cancelled : bool
}.

Inductive RunState : Type :=
| Waiting          (* suspended, the script is used up *)
| Left.            (* the coroutine ended *)

Section ReadLoop.

Variable float_of_int : Z -> option float.
Variable float_of_text : string -> option float.

(** [async for message in ws: await self._handle_message(message)], on the
    frames the socket delivers: they are handled in order until one
    raises. *)
Fixpoint read_frames (frames : list Loads) : M unit :=
  match frames with
  | [] => ret tt
  | raw :: rest =>
      bind (_handle_message float_of_int float_of_text raw)
           (fun _ => read_frames rest)
  end.

(** The [except Exception] clause of [_run]: [backend_disconnected], then
    the sleep of two seconds, after which the loop goes on with [continue].
    [naps] counts the sleeps begun. *)
Definition reconnect_after_error (cancelled : bool)
    (continue : nat -> World -> RunState * nat * World)
    (naps : nat) (w : World) : RunState * nat * World :=
  let w1 := emit backend_disconnected w in
  if cancelled then (Left, S naps, w1) else continue (S naps) w1.

(** [WebSocketClient._run] with [self._running] set, as [start()] leaves
    it; [stop()] shows as a cancellation.  The heartbeat task writes to the
    socket only and is left out. *)
Fixpoint _run (script : list Turn) (naps : nat) (w : World)
    : RunState * nat * World :=
  match script with
  | [] => (Waiting, naps, w)
  | t :: rest =>
      match attempt t with
      | ConnectFailed =>
          reconnect_after_error (nap_cancelled t) (_run rest) naps w
      | ConnectCancelled => (Left, naps, w)
      | Session frames fin =>
          match read_frames frames (emit backend_connected w) with
          | (Raise _, w1) =>
              reconnect_after_error (nap_cancelled t) (_run rest) naps w1
          | (CancelledError, w1) => (Left, naps, w1)
          | (Return _, w1) =>
              match fin with
              | PeerClosed => _run rest naps w1
              | ReadFailed =>
                  reconnect_after_error (nap_cancelled t) (_run rest) naps w1
              | ReadCancelled => (Left, naps, w1)
              end
          end
      end
  end.

End ReadLoop.

(** [AuthBridge.logout]: a failure of the backend call is swallowed, a
    cancellation is not. *)
Definition logout (o : HttpOutcome) : M unit :=
  fun w =>
    match _request "POST" "/auth/logout" None o w with
    | (CancelledError, w1) => (CancelledError, w1)
    | (_, w1) => (Return tt, emit user_logged_out (_clear_auth_state w1))
    end.

(** [APIClient.health_check] *)
Definition health_check (o : HttpOutcome) : M bool :=
  fun w =>
    match _request "GET" "/health" None o w with
    | (Return _, w1) => (Return true, emit backend_connected w1)
    | (Raise _, w1) => (Return false, w1)
    | (CancelledError, w1) => (CancelledError, w1)
    end.

Section RestGeneration.

Variable str_exc : Exception -> string.

(** [APIClient.generate_music] *)
Definition generate_music (payload : pyval) (o : HttpOutcome) : M pyval :=
  fun w =>
    let attempt :=
      (result <- _request "POST" "/generate/music" (Some payload) o ;;
       emit_dict generation_finished result ;;;
       ret result)%py in
    match attempt (emit generation_started w) with
    | (Return result, w1) => (Return result, w1)
    | (Raise exc, w1) =>
        (Raise exc, emit (generation_failed (str_exc exc)) w1)
    | (CancelledError, w1) => (CancelledError, w1)
    end.

End RestGeneration.

(** HTTP headers, a [Dict[str, str]]: the keys in the order of their
    insertion, each once. *)
Definition Headers : Type := list (string * string).

Fixpoint headers_get (h : Headers) (key : string) : option string :=
  match h with
  | [] => None
  | (k, v) :: rest => if String.eqb k key then Some v else headers_get rest key
  end.

(** [headers[key] = value]: a key that is present keeps its place. *)
Fixpoint headers_set (h : Headers) (key value : string) : Headers :=
  match h with
  | [] => [(key, value)]
  | (k, v) :: rest =>
      if String.eqb k key then (key, value) :: rest
      else (k, v) :: headers_set rest key value
  end.

Section AuthHeader.

(** How an f-string renders a token that is no [str]. *)
Variable format_value : pyval -> string.

(** [AuthBridge.inject_auth_header] *)
Definition inject_auth_header (headers : Headers) (w : World) : Headers :=
  if truthy (access_token w) then
    headers_set headers "Authorization"
      ("Bearer " ++ match access_token w with
                    | PStr s => s
                    | other => format_value other
                    end)
  else headers.

End AuthHeader.

(** ** Counters and shapes used in the statements *)

Definition is_backend_disconnected (s : Signal) : bool :=
  match s with backend_disconnected => true | _ => false end.

Definition is_backend_connected (s : Signal) : bool :=
  match s with backend_connected => true | _ => false end.

(** The signals that tell of the generation: those of the bus and the two
    [AppState] emits on a change of its generation sub-record. *)
Definition is_generation_signal (s : Signal) : bool :=
  match s with
  | generation_started | generation_progress _ | generation_preview _
  | generation_finished _ | generation_failed _ | generation_failed_none
  | generation_cancelled | generation_changed _ => true
  | state_changed _ (SnapGeneration _) => true
  | _ => false
  end.

(** What the read loop may emit: generation signals and the two
    connection signals. *)
Definition is_channel_signal (s : Signal) : bool :=
  is_generation_signal s || is_backend_connected s || is_backend_disconnected s.

Definition count_signal (p : Signal -> bool) (l : list Signal) : nat :=
  List.length (filter p l).

Definition is_dict (v : pyval) : bool :=
  match v with PDict _ => true | _ => false end.

(** A frame the handler has no branch for: text that is no JSON, or an
    object whose [type] is none of the four it dispatches on. *)
Definition ignored_frame (raw : Loads) : bool :=
  match raw with
  | JSONDecodeError => true
  | LoadsFailed _ => false
  | Decoded (PDict d) =>
      match dict_get d "type" with
      | Some (PStr t) =>
          negb (String.eqb t "progress" || String.eqb t "preview"
                || String.eqb t "error" || String.eqb t "completed")
      | _ => true
      end
  | Decoded _ => false
  end.

Definition is_generation_progress (s : Signal) : bool :=
  match s with generation_progress _ => true | _ => false end.

(** The access token a successful exchange hands out: the [access_token]
    field of the body, [None] when the body has none. *)
Definition token_of (o : HttpOutcome) : pyval :=
  match o with
  | HttpOk _ (PDict d) =>
      match dict_get d "access_token" with
      | Some v => v
      | None => PNone
      end
  | _ => PNone
  end.

Definition is_cancel (c : Cycle) : bool :=
  match c with
  | CancelInSleep | Tick HttpCancelled => true
  | _ => false
  end.

(** A pass of the read loop that ends with a clean close and carries
    ignored frames only. *)
Definition clean_turn (t : Turn) : bool :=
  match attempt t with
  | Session frames PeerClosed => forallb ignored_frame frames
  | _ => false
  end.

(** The final metadata of [_run_generation_stream]. *)
Definition final_metadata : pyval :=
  PDict [("status", PStr "completed"); ("tracks", PList []);
         ("metadata", PDict [])].

(** The progress frame [{"type": "progress", "value": v}]. *)
Definition progress_frame (v : float) : Loads :=
  Decoded (PDict [("type", PStr "progress"); ("value", PFloat v)]).

(** The part of the process state that no generation event may touch. *)
Definition same_outside_generation (w w' : World) : Prop :=
  AppState.user (app w') = AppState.user (app w)
  /\ AppState.project (app w') = AppState.project (app w)
  /\ AppState.backend (app w') = AppState.backend (app w)
  /\ AppState.ui_flags (app w') = AppState.ui_flags (app w)
  /\ grpc_connected w' = grpc_connected w
  /\ access_token w' = access_token w
  /\ refresh_token w' = refresh_token w
  /\ refresh_task w' = refresh_task w
  /\ requests w' = requests w.

(* ================================================================== *)
(** * The session state store *)
(* ================================================================== *)

Section Store.

Import AppState.

(** Two floats that the IEEE comparison tells apart are different. *)
Lemma float_eqb_neq (x y : float) :
  PrimFloat.eqb x x = true -> PrimFloat.eqb x y = false -> x <> y.
Proof.
  intros Hxx Hxy Heq. rewrite <- Heq in Hxy. congruence.
Qed.

Lemma generation_set_generation (kw : GenerationKwargs) (w : World) :
  generation (app (set_generation kw w))
  = GenerationState_merge (generation (app w)) kw.
Proof. reflexivity. Qed.

Lemma emitted_set_generation (kw : GenerationKwargs) (w : World) :
  emitted (set_generation kw w)
  = emitted w
    ++ [generation_changed (GenerationState_merge (generation (app w)) kw);
        state_changed "generation"
          (SnapGeneration (GenerationState_merge (generation (app w)) kw))].
Proof. unfold set_generation; simpl. now rewrite <- app_assoc. Qed.

(** C1, as the code has it: [update_generation_progress(v)] has no guard.
    In every state, in progress or not, it stores [v] as the progress and
    keeps [in_progress] and [last_error]. *)
Theorem update_generation_progress_unconditional (v : float) (w : World) :
  generation (app (update_generation_progress v w))
  = mkGenerationState (in_progress (generation (app w))) v
                      (last_error (generation (app w))).
Proof. reflexivity. Qed.

(** C1, refuted as stated: on the fresh store, where no generation is in
    progress, [update_generation_progress(0.5)] changes the progress from
    [0.0] to [0.5]. *)
Lemma update_generation_progress_not_guarded :
  ~ (forall (v : float) (w : World),
       in_progress (generation (app w)) = false ->
       progress (generation (app (update_generation_progress v w)))
       = progress (generation (app w))).
Proof.
  intro H. specialize (H 0.5%float world0 eq_refl).
  revert H. apply float_eqb_neq; reflexivity.
Qed.

(** C4: [finish_generation] is idempotent on the snapshot: twice gives the
    state that once gives, with [in_progress] false and progress [1.0]. *)
Theorem finish_generation_idempotent (w : World) :
  app (finish_generation (finish_generation w)) = app (finish_generation w)
  /\ in_progress (generation (app (finish_generation (finish_generation w)))) = false
  /\ progress (generation (app (finish_generation (finish_generation w)))) = 1%float.
Proof. repeat split. Qed.

(** C9: a generation mutation replaces the generation sub-record only;
    [user], [project], [backend] and [ui_flags] are the ones of before. *)
Theorem generation_mutation_frame (m : Mutation) (w : World) :
  user (app (apply_mutation m w)) = user (app w)
  /\ project (app (apply_mutation m w)) = project (app w)
  /\ backend (app (apply_mutation m w)) = backend (app w)
  /\ ui_flags (app (apply_mutation m w)) = ui_flags (app w).
Proof. destruct m; repeat split. Qed.








Example fail_then_finish_snapshot :
  generation (app (run_mutations
     [FailGeneration "boom"; CompleteGeneration] world0))
  = mkGenerationState false 1%float (Some "boom").
Proof. reflexivity. Qed.


End Store.

(* ================================================================== *)
(** * The realtime channel's handler and the streaming job client *)
(* ================================================================== *)

Section Channels.

Import AppState.

Variable float_of_int : Z -> option float.
Variable float_of_text : string -> option float.
Variable str_exc : Exception -> string.

Local Abbreviation handle := (_handle_message float_of_int float_of_text).
Local Abbreviation gen := (generate float_of_int float_of_text str_exc).
Local Abbreviation wake := (generate_wake float_of_int float_of_text str_exc).

(** The handler on a progress frame whose value is a float. *)
Lemma handle_progress_float (d : list (string * pyval)) (f : float) (w : World) :
  dict_get d "type" = Some (PStr "progress") ->
  dict_get d "value" = Some (PFloat f) ->
  handle (Decoded (PDict d)) w
  = (Return tt, update_generation_progress f (emit (generation_progress f) w)).
Proof.
  intros Ht Hv. unfold _handle_message, bind, lift, act, py_get.
  rewrite Ht. simpl. rewrite Hv. reflexivity.
Qed.

(** The handler on a completed frame. *)
Lemma handle_completed (fields : list (string * pyval)) (w : World) :
  handle (Decoded (PDict (("type", PStr "completed") :: fields))) w
  = (Return tt,
     finish_generation
       (emit (generation_finished (PDict (("type", PStr "completed") :: fields))) w)).
Proof. reflexivity. Qed.

(** The handler on an error frame that carries a text. *)
Lemma handle_error (e : string) (w : World) :
  handle (Decoded (PDict [("type", PStr "error"); ("error", PStr e)])) w
  = (Return tt, fail_generation e (emit (generation_failed e) w)).
Proof. reflexivity. Qed.

(** C6: the frames [{"type":"progress","value":0.4}] and
    [{"type":"completed","metadata":{}}], handled in this order from any
    state, are both accepted; the first stores [0.4], and the final
    snapshot has [in_progress] false and progress exactly [1.0]. *)
Theorem progress_then_completed (w : World) :
  exists w1 w2 : World,
    handle (Decoded (PDict [("type", PStr "progress"); ("value", PFloat 0.4)])) w
    = (Return tt, w1)
    /\ handle (Decoded (PDict [("type", PStr "completed"); ("metadata", PDict [])])) w1
       = (Return tt, w2)
    /\ progress (generation (app w1)) = 0.4%float
    /\ in_progress (generation (app w2)) = false
    /\ progress (generation (app w2)) = 1%float.
Proof.
  eexists; eexists. split.
  - apply handle_progress_float; reflexivity.
  - split; [apply handle_completed |]. repeat split.
Qed.

(** C10: a progress frame without a [value] field is not dropped.  The
    handler takes the default [0.0], emits it and stores it: the progress
    becomes [0.0], whatever it was, and [in_progress] is kept. *)
Theorem progress_frame_without_value (d : list (string * pyval)) (w : World) :
  dict_get d "type" = Some (PStr "progress") ->
  dict_get d "value" = None ->
  handle (Decoded (PDict d)) w
  = (Return tt, update_generation_progress 0 (emit (generation_progress 0) w))
  /\ progress (generation (app (snd (handle (Decoded (PDict d)) w)))) = 0%float
  /\ in_progress (generation (app (snd (handle (Decoded (PDict d)) w))))
     = in_progress (generation (app w)).
Proof.
  intros Ht Hv.
  assert (E : handle (Decoded (PDict d)) w
              = (Return tt,
                 update_generation_progress 0 (emit (generation_progress 0) w))).
  { unfold _handle_message, bind, lift, act, py_get.
    rewrite Ht. simpl. rewrite Hv. reflexivity. }
  rewrite E. repeat split.
Qed.

(** C3, as the code has it: a cancellation that reaches [generate] while it
    waits on the stream ends the coroutine with [CancelledError], emits
    [generation_cancelled] and nothing else, and leaves the store as it
    was: [in_progress], [progress] and [last_error] are not written. *)
Theorem cancel_leaves_store_untouched (rest : list StreamItem) (w : World) :
  fst (wake Cancel (AwaitStream rest) w) = Finished CancelledError
  /\ app (snd (wake Cancel (AwaitStream rest) w)) = app w
  /\ emitted (snd (wake Cancel (AwaitStream rest) w))
     = emitted w ++ [generation_cancelled].
Proof. repeat split. Qed.

(** C2, as the code has it: [generate] has no busy check.  On a connected
    client a call made while another one streams is accepted: it emits
    [generation_started], resets the generation sub-record to a job in
    progress at [0.0] with no error, and suspends at the first sleep of its
    own stream. *)
Theorem second_generate_is_accepted (request : pyval) (w : World) :
  grpc_connected w = true ->
  fst (gen request w) = AwaitStream (tl (_fake_stream request))
  /\ generation (app (snd (gen request w))) = mkGenerationState true 0 None
  /\ emitted (snd (gen request w))
     = emitted w
       ++ [generation_started;
           generation_changed (mkGenerationState true 0 None);
           state_changed "generation"
             (SnapGeneration (mkGenerationState true 0 None))].
Proof.
  intro Hc. unfold generate. rewrite Hc.
  unfold generate_connected. simpl.
  repeat split. now rewrite <- !app_assoc.
Qed.

(** C5, as the code has it: the handler keeps no job token.  After a
    cancelled [generate], a completed frame is accepted and applied (the
    store goes to [in_progress] false, progress [1.0]), and an error frame
    is accepted and applied ([in_progress] false, [last_error] the frame's
    text). *)
Theorem late_frames_are_applied
    (rest : list StreamItem) (fields : list (string * pyval)) (e : string)
    (w : World) :
  let wc := snd (wake Cancel (AwaitStream rest) w) in
  (fst (handle (Decoded (PDict (("type", PStr "completed") :: fields))) wc) = Return tt
   /\ generation (app (snd (handle (Decoded (PDict (("type", PStr "completed") :: fields))) wc)))
      = mkGenerationState false 1 (last_error (generation (app w))))
  /\ (fst (handle (Decoded (PDict [("type", PStr "error"); ("error", PStr e)])) wc) = Return tt
      /\ generation (app (snd (handle (Decoded (PDict [("type", PStr "error"); ("error", PStr e)])) wc)))
         = mkGenerationState false (progress (generation (app w))) (Some e)).
Proof. repeat split. Qed.

(** The first job of a connected client, five progress messages in. *)
Example first_job_midway :
  let tw := resume_n (wake Resume) 5 (gen PNone (with_grpc_connected true world0)) in
  generation (app (snd tw)) = mkGenerationState true 0.5 None
  /\ grpc_connected (snd tw) = true
  /\ exists rest, fst tw = AwaitStream rest.
Proof. repeat split. eexists. reflexivity. Qed.

End Channels.

Section ChannelRuns.

Import AppState.

Local Abbreviation gen0 := (generate no_float_of_int no_float_of_text no_str_exc).
Local Abbreviation wake0 := (generate_wake no_float_of_int no_float_of_text no_str_exc).
Local Abbreviation handle0 := (_handle_message no_float_of_int no_float_of_text).

(** C2, refuted as stated: a connected client whose first job has handled
    five progress messages (progress [0.5]) takes a second [generate] call:
    the call is not rejected, it suspends in its own stream, and the
    progress of the first job is reset to [0.0]. *)
Lemma generate_has_no_busy_check :
  ~ (forall (float_of_int : Z -> option float)
            (float_of_text : string -> option float)
            (str_exc : Exception -> string)
            (request : pyval) (w : World),
       grpc_connected w = true ->
       in_progress (generation (app w)) = true ->
       exists e : Exception,
         fst (generate float_of_int float_of_text str_exc request w)
         = Finished (Raise e)
         /\ generation (app (snd (generate float_of_int float_of_text str_exc request w)))
            = generation (app w)).
Proof.
  intro H.
  destruct (H no_float_of_int no_float_of_text no_str_exc PNone
              (snd (resume_n (wake0 Resume) 5
                      (gen0 PNone (with_grpc_connected true world0))))
              eq_refl eq_refl) as [e [Hrej _]].
  vm_compute in Hrej. discriminate Hrej.
Qed.

Lemma second_generate_is_accepted_witness :
  let w := snd (resume_n (wake0 Resume) 5
                  (gen0 PNone (with_grpc_connected true world0))) in
  grpc_connected w = true
  /\ fst (gen0 PNone w) = AwaitStream (tl (_fake_stream PNone))
  /\ generation (app (snd (gen0 PNone w))) = mkGenerationState true 0 None
  /\ emitted (snd (gen0 PNone w))
     = emitted w
       ++ [generation_started;
           generation_changed (mkGenerationState true 0 None);
           state_changed "generation"
             (SnapGeneration (mkGenerationState true 0 None))].
Proof.
  split; [reflexivity |].
  apply (second_generate_is_accepted no_float_of_int no_float_of_text no_str_exc).
  reflexivity.
Defined.

(** C3, refuted as stated: a job cancelled at its first sleep ends with
    [CancelledError], but the store is not in a terminal state:
    [in_progress] is still true. *)
Lemma cancel_reaches_no_terminal_state :
  ~ (forall (float_of_int : Z -> option float)
            (float_of_text : string -> option float)
            (str_exc : Exception -> string)
            (rest : list StreamItem) (w : World),
       fst (generate_wake float_of_int float_of_text str_exc
              Cancel (AwaitStream rest) w) = Finished CancelledError
       /\ in_progress (generation (app (snd
            (generate_wake float_of_int float_of_text str_exc
               Cancel (AwaitStream rest) w)))) = false
       /\ last_error (generation (app (snd
            (generate_wake float_of_int float_of_text str_exc
               Cancel (AwaitStream rest) w)))) = None).
Proof.
  intro H.
  destruct (H no_float_of_int no_float_of_text no_str_exc
              (tl (_fake_stream PNone))
              (snd (gen0 PNone (with_grpc_connected true world0))))
    as [_ [Hstop _]].
  vm_compute in Hstop. discriminate Hstop.
Qed.

(** C5, refuted as stated: a job is cancelled after three progress
    messages; the completed frame that the realtime channel delivers next
    is applied, and the generation sub-record changes. *)
Lemma late_completed_frame_mutates :
  ~ (forall (float_of_int : Z -> option float)
            (float_of_text : string -> option float)
            (str_exc : Exception -> string)
            (rest : list StreamItem) (fields : list (string * pyval))
            (w : World),
       let wc := snd (generate_wake float_of_int float_of_text str_exc
                        Cancel (AwaitStream rest) w) in
       generation (app (snd (_handle_message float_of_int float_of_text
                               (Decoded (PDict (("type", PStr "completed") :: fields)))
                               wc)))
       = generation (app wc)).
Proof.
  intro H.
  pose proof (H no_float_of_int no_float_of_text no_str_exc
                (skipn 7 (_fake_stream PNone))
                [("metadata", PDict [])]
                (snd (resume_n (wake0 Resume) 3
                        (gen0 PNone (with_grpc_connected true world0)))))
    as Hsame.
  vm_compute in Hsame.
  apply (f_equal in_progress) in Hsame. discriminate Hsame.
Qed.

(** The run of the last lemma, step by step. *)
Example cancelled_then_completed_run :
  let tw := resume_n (wake0 Resume) 3
              (gen0 PNone (with_grpc_connected true world0)) in
  let cancelled := wake0 Cancel (fst tw) (snd tw) in
  let after := handle0 (Decoded (PDict [("type", PStr "completed");
                                     ("metadata", PDict [])]))
                       (snd cancelled) in
  fst tw = AwaitStream (skipn 7 (_fake_stream PNone))
  /\ fst cancelled = Finished CancelledError
  /\ generation (app (snd cancelled))
     = mkGenerationState true (3 / 10)%float None
  /\ fst after = Return tt
  /\ generation (app (snd after)) = mkGenerationState false 1 None.
Proof. repeat split. Qed.

Lemma progress_frame_without_value_witness :
  let d := [("type", PStr "progress")] in
  let w := update_generation_progress 0.7 (start_generation world0) in
  dict_get d "type" = Some (PStr "progress")
  /\ dict_get d "value" = None
  /\ in_progress (generation (app w)) = true
  /\ progress (generation (app w)) = 0.7%float
  /\ handle0 (Decoded (PDict d)) w
     = (Return tt, update_generation_progress 0 (emit (generation_progress 0) w))
  /\ progress (generation (app (snd (handle0 (Decoded (PDict d)) w)))) = 0%float
  /\ in_progress (generation (app (snd (handle0 (Decoded (PDict d)) w))))
     = in_progress (generation (app w)).
Proof.
  repeat (split; [reflexivity |]).
  apply (progress_frame_without_value no_float_of_int no_float_of_text
           [("type", PStr "progress")]
           (update_generation_progress 0.7 (start_generation world0)));
    reflexivity.
Defined.

End ChannelRuns.

(* ================================================================== *)
(** * The credential refresh loop *)
(* ================================================================== *)

Section Refresh.

Import AppState.

Lemma count_logged_out_app (l1 l2 : list Signal) :
  count_logged_out (l1 ++ l2) = count_logged_out l1 + count_logged_out l2.
Proof.
  induction l1 as [| s l1 IH]; simpl; [reflexivity |].
  destruct s; simpl; rewrite IH; reflexivity.
Qed.

(** A turn whose exchange goes through sends one request, emits no logout,
    keeps the refresh token, and the loop goes on. *)
Lemma refresh_loop_turn_ok (o : HttpOutcome) (rest : list Cycle) (w : World) :
  truthy (refresh_token w) = true ->
  exchange_succeeds o = true ->
  exists w1 : World,
    _refresh_loop (Tick o :: rest) w = _refresh_loop rest w1
    /\ refresh_token w1 = refresh_token w
    /\ count_logged_out (emitted w1) = count_logged_out (emitted w)
    /\ List.length (requests w1) = S (List.length (requests w)).
Proof.
  intros Htok Hok.
  destruct o as [ms body | | | |]; try discriminate Hok.
  destruct body; try discriminate Hok.
  cbn [_refresh_loop]. rewrite Htok.
  cbv [negb bind lift act _request py_get].
  destruct (dict_get d "access_token");
    (eexists; split; [reflexivity |]; cbn [refresh_token with_access_token
       emit send emitted requests]; repeat split;
     [rewrite count_logged_out_app; simpl; lia
     | rewrite List.length_app; simpl; lia]).
Qed.

(** A turn whose exchange fails sends its one request, emits one logout,
    clears the credentials and leaves the loop, whatever would follow. *)
Lemma refresh_loop_turn_fails (o : HttpOutcome) (rest : list Cycle) (w : World) :
  truthy (refresh_token w) = true ->
  exchange_fails o = true ->
  fst (_refresh_loop (Tick o :: rest) w) = Exited
  /\ count_logged_out (emitted (snd (_refresh_loop (Tick o :: rest) w)))
     = S (count_logged_out (emitted w))
  /\ access_token (snd (_refresh_loop (Tick o :: rest) w)) = PNone
  /\ refresh_token (snd (_refresh_loop (Tick o :: rest) w)) = PNone
  /\ refresh_task (snd (_refresh_loop (Tick o :: rest) w)) = false
  /\ List.length (requests (snd (_refresh_loop (Tick o :: rest) w)))
     = S (List.length (requests w))
  /\ authenticated (user (app (snd (_refresh_loop (Tick o :: rest) w)))) = false.
Proof.
  intros Htok Hbad.
  assert (Hclr : forall v : World,
             refresh_task (_clear_auth_state v) = false
             /\ access_token (_clear_auth_state v) = PNone
             /\ refresh_token (_clear_auth_state v) = PNone
             /\ requests (_clear_auth_state v) = requests v
             /\ authenticated (user (app (_clear_auth_state v))) = false
             /\ count_logged_out (emitted (_clear_auth_state v))
                = count_logged_out (emitted v)).
  { intro v. unfold _clear_auth_state. simpl.
    destruct (refresh_task v) eqn:E; simpl; repeat split; try assumption;
      rewrite <- app_assoc, count_logged_out_app; simpl; lia. }
  cbn [_refresh_loop]. rewrite Htok.
  destruct o as [ms body | ms text | text | ms text |]; try discriminate Hbad;
    [destruct body; try discriminate Hbad | | |];
    cbv [negb bind lift act _request py_get fst snd];
    match goal with
    | |- context [_clear_auth_state ?v] =>
        destruct (Hclr v) as (H1 & H2 & H3 & H4 & H5 & H6);
        rewrite H1, H2, H3, H4, H5, H6
    end;
    simpl; rewrite ?count_logged_out_app, ?List.length_app; simpl;
    repeat split; lia.
Qed.

(** C8: whenever the exchange step fails, after any number of turns that
    went through, the loop emits [user_logged_out] exactly once, clears
    both tokens and the task handle, marks the user unauthenticated and
    returns.  It sends no request after the failed one, whatever the
    backend would have answered next. *)
Theorem refresh_failure_forces_logout
    (oks : list HttpOutcome) (bad : HttpOutcome) (rest : list Cycle) (w : World) :
  truthy (refresh_token w) = true ->
  forallb exchange_succeeds oks = true ->
  exchange_fails bad = true ->
  fst (_refresh_loop (map Tick oks ++ Tick bad :: rest) w) = Exited
  /\ count_logged_out (emitted (snd (_refresh_loop (map Tick oks ++ Tick bad :: rest) w)))
     = S (count_logged_out (emitted w))
  /\ access_token (snd (_refresh_loop (map Tick oks ++ Tick bad :: rest) w)) = PNone
  /\ refresh_token (snd (_refresh_loop (map Tick oks ++ Tick bad :: rest) w)) = PNone
  /\ refresh_task (snd (_refresh_loop (map Tick oks ++ Tick bad :: rest) w)) = false
  /\ List.length (requests (snd (_refresh_loop (map Tick oks ++ Tick bad :: rest) w)))
     = List.length (requests w) + List.length oks + 1
  /\ authenticated (user (app (snd (_refresh_loop (map Tick oks ++ Tick bad :: rest) w))))
     = false.
Proof.
  revert w. induction oks as [| o oks IH]; intros w Htok Hoks Hbad.
  - cbn [map List.app List.length].
    destruct (refresh_loop_turn_fails bad rest w Htok Hbad)
      as (H1 & H2 & H3 & H4 & H5 & H6 & H7).
    repeat split; try assumption. lia.
  - cbn [forallb] in Hoks. apply andb_prop in Hoks. destruct Hoks as [Ho Hoks].
    cbn [map List.app List.length].
    destruct (refresh_loop_turn_ok o (map Tick oks ++ Tick bad :: rest) w Htok Ho)
      as (w1 & Hstep & Hrt & Hcnt & Hlen).
    rewrite Hstep.
    assert (Htok1 : truthy (refresh_token w1) = true) by now rewrite Hrt.
    destruct (IH w1 Htok1 Hoks Hbad) as (H1 & H2 & H3 & H4 & H5 & H6 & H7).
    repeat split; try assumption; lia.
Qed.

Lemma refresh_failure_forces_logout_witness :
  let w := _start_token_refresh_loop
             (with_refresh_token (PStr "r1") (with_access_token (PStr "a1") world0)) in
  let oks := [HttpOk 12 (PDict [("access_token", PStr "a2")])] in
  let bad := HttpStatus 30 "401 Unauthorized" in
  let rest := [Tick (HttpOk 9 (PDict [("access_token", PStr "a3")]))] in
  truthy (refresh_token w) = true
  /\ forallb exchange_succeeds oks = true
  /\ exchange_fails bad = true
  /\ fst (_refresh_loop (map Tick oks ++ Tick bad :: rest) w) = Exited
  /\ count_logged_out (emitted (snd (_refresh_loop (map Tick oks ++ Tick bad :: rest) w)))
     = S (count_logged_out (emitted w))
  /\ access_token (snd (_refresh_loop (map Tick oks ++ Tick bad :: rest) w)) = PNone
  /\ refresh_token (snd (_refresh_loop (map Tick oks ++ Tick bad :: rest) w)) = PNone
  /\ refresh_task (snd (_refresh_loop (map Tick oks ++ Tick bad :: rest) w)) = false
  /\ List.length (requests (snd (_refresh_loop (map Tick oks ++ Tick bad :: rest) w)))
     = List.length (requests w) + List.length oks + 1
  /\ authenticated (user (app (snd (_refresh_loop (map Tick oks ++ Tick bad :: rest) w))))
     = false.
Proof.
  repeat (split; [reflexivity |]).
  apply (refresh_failure_forces_logout
           [HttpOk 12 (PDict [("access_token", PStr "a2")])]
           (HttpStatus 30 "401 Unauthorized")
           [Tick (HttpOk 9 (PDict [("access_token", PStr "a3")]))]
           (_start_token_refresh_loop
              (with_refresh_token (PStr "r1")
                 (with_access_token (PStr "a1") world0))));
    reflexivity.
Defined.

End Refresh.

(* ================================================================== *)
(** * More on the handler of the realtime channel *)
(* ================================================================== *)

(** Case analysis along the branches of a handler, innermost test first. *)
Ltac branches :=
  repeat match goal with
         | |- context [match ?x with _ => _ end] =>
             lazymatch x with
             | context [match _ with _ => _ end] => fail
             | _ => destruct x eqn:?
             end
         end.

Ltac open_handler :=
  cbv [_handle_message _handle_stream_message bind lift act ret py_get
       py_float emit_str emit_dict is_str].

Section Handler.

Import AppState.

Variable float_of_int : Z -> option float.
Variable float_of_text : string -> option float.

Local Abbreviation handle := (_handle_message float_of_int float_of_text).
Local Abbreviation handle_stream :=
  (_handle_stream_message float_of_int float_of_text).
Local Abbreviation read := (read_frames float_of_int float_of_text).

Lemma forallb_generation_app (l1 l2 : list Signal) :
  forallb is_generation_signal (l1 ++ l2)
  = forallb is_generation_signal l1 && forallb is_generation_signal l2.
Proof. apply forallb_app. Qed.

(** Whatever the frame, the handler writes the generation sub-record at
    most and emits generation signals only. *)
Lemma handle_footprint (raw : Loads) (w : World) :
  same_outside_generation w (snd (handle raw w))
  /\ exists l : list Signal,
       emitted (snd (handle raw w)) = emitted w ++ l
       /\ forallb is_generation_signal l = true.
Proof.
  unfold same_outside_generation.
  open_handler. branches; cbn;
    (split; [repeat split |]);
    rewrite <- ?app_assoc; cbn;
    (eexists; split; [reflexivity | reflexivity])
    || (exists (@nil Signal); split; [now rewrite app_nil_r | reflexivity]).
Qed.

(** X2: the handler never ends cancelled, and when it raises it has
    neither emitted nor written anything. *)
Theorem handler_failure_is_atomic (raw : Loads) (w : World) :
  match handle raw w with
  | (Return _, _) => True
  | (Raise _, w') => w' = w
  | (CancelledError, _) => False
  end.
Proof.
  open_handler. branches; cbn; exact I || reflexivity.
Qed.

(** An ignored frame is dropped: the handler returns and nothing changes. *)
Lemma handle_ignored (raw : Loads) (w : World) :
  ignored_frame raw = true ->
  handle raw w = (Return tt, w).
Proof.
  intro H. destruct raw as [data | | text]; [| reflexivity | discriminate H].
  destruct data; try discriminate H.
  cbn [ignored_frame] in H. open_handler.
  destruct (dict_get d "type") as [t |]; [| reflexivity].
  destruct t; try reflexivity.
  apply negb_true_iff in H.
  apply orb_false_iff in H. destruct H as [H Hc].
  apply orb_false_iff in H. destruct H as [H He].
  apply orb_false_iff in H. destruct H as [Hp Hv].
  rewrite Hp, Hv, He, Hc. destruct (String.eqb s "status"); reflexivity.
Qed.

(** X4: a frame that is JSON but no object (a list, a number, a string,
    [null]) is not dropped: the handler raises on [data.get] and leaves
    the state as it was. *)
Theorem handler_raises_on_non_object (data : pyval) (w : World) :
  is_dict data = false ->
  handle (Decoded data) w = (Raise (AttributeError data), w).
Proof.
  intro H. destruct data; try reflexivity. discriminate H.
Qed.

(** X5: an error frame without an [error] field fails the generation
    with the text ["Unknown error"]; the progress is kept. *)
Theorem error_frame_without_text (d : list (string * pyval)) (w : World) :
  dict_get d "type" = Some (PStr "error") ->
  dict_get d "error" = None ->
  handle (Decoded (PDict d)) w
  = (Return tt,
     fail_generation "Unknown error" (emit (generation_failed "Unknown error") w))
  /\ generation (app (snd (handle (Decoded (PDict d)) w)))
     = mkGenerationState false (progress (generation (app w)))
                         (Some "Unknown error").
Proof.
  intros Ht He.
  assert (E : handle (Decoded (PDict d)) w
              = (Return tt,
                 fail_generation "Unknown error"
                   (emit (generation_failed "Unknown error") w))).
  { open_handler. rewrite Ht. cbn. rewrite He. reflexivity. }
  rewrite E. split; reflexivity.
Qed.

(** X7: on a progress and on a preview message the handler of the job
    stream and the handler of the realtime channel do the same. *)
Theorem handlers_agree_on_progress_and_preview
    (d : list (string * pyval)) (w : World) :
  dict_get d "type" = Some (PStr "progress")
  \/ dict_get d "type" = Some (PStr "preview") ->
  handle_stream (PDict d) w = handle (Decoded (PDict d)) w.
Proof.
  intros [H | H]; open_handler; rewrite H; reflexivity.
Qed.

Lemma read_frames_app (l1 l2 : list Loads) (w : World) :
  read (l1 ++ l2) w
  = match read l1 w with
    | (Return _, w1) => read l2 w1
    | other => other
    end.
Proof.
  revert w. induction l1 as [| raw l1 IH]; intro w; cbn [List.app read_frames].
  - reflexivity.
  - unfold bind, ret.
    destruct (handle raw w) as [[[] | e |] w1]; [apply IH | reflexivity | reflexivity].
Qed.

Lemma read_progress_frame (v : float) (w : World) :
  handle (progress_frame v) w
  = (Return tt, update_generation_progress v (emit (generation_progress v) w)).
Proof. reflexivity. Qed.

Lemma count_signal_app (p : Signal -> bool) (l1 l2 : list Signal) :
  count_signal p (l1 ++ l2) = count_signal p l1 + count_signal p l2.
Proof. unfold count_signal. now rewrite filter_app, List.length_app. Qed.

(** A run of progress frames is read to its end; it keeps [in_progress]
    and [last_error] and emits one [generation_progress] per frame. *)
Lemma read_progress_frames (vs : list float) (w : World) :
  fst (read (map progress_frame vs) w) = Return tt
  /\ in_progress (generation (app (snd (read (map progress_frame vs) w))))
     = in_progress (generation (app w))
  /\ last_error (generation (app (snd (read (map progress_frame vs) w))))
     = last_error (generation (app w))
  /\ count_signal is_generation_progress
       (emitted (snd (read (map progress_frame vs) w)))
     = count_signal is_generation_progress (emitted w) + List.length vs.
Proof.
  revert w. induction vs as [| v vs IH]; intro w.
  - cbn. repeat split. lia.
  - cbn [map read_frames]. unfold bind. rewrite read_progress_frame.
    destruct (IH (update_generation_progress v (emit (generation_progress v) w)))
      as (H1 & H2 & H3 & H4).
    rewrite H1, H2, H3, H4. repeat split.
    cbn [update_generation_progress set_generation emit emitted with_app].
    rewrite <- !app_assoc, !count_signal_app. cbn. lia.
Qed.

(** X6: the last progress frame wins.  After any run of progress frames,
    rising or not and in range or not, the stored progress is the value of
    the last one; [in_progress] and [last_error] are untouched and each
    frame was announced by one [generation_progress]. *)
Theorem last_progress_frame_wins (vs : list float) (v : float) (w : World) :
  fst (read (map progress_frame (vs ++ [v])) w) = Return tt
  /\ generation (app (snd (read (map progress_frame (vs ++ [v])) w)))
     = mkGenerationState (in_progress (generation (app w))) v
                         (last_error (generation (app w)))
  /\ count_signal is_generation_progress
       (emitted (snd (read (map progress_frame (vs ++ [v])) w)))
     = count_signal is_generation_progress (emitted w) + S (List.length vs).
Proof.
  destruct (read_progress_frames (vs ++ [v]) w) as (H1 & _ & _ & H4).
  split; [exact H1 |]. split.
  - rewrite map_app, read_frames_app.
    destruct (read_progress_frames vs w) as (G1 & G2 & G3 & _).
    destruct (read (map progress_frame vs) w) as [o w1].
    cbn [fst snd] in G1, G2, G3. subst o.
    cbn [map read_frames]. unfold bind. rewrite read_progress_frame.
    cbn [ret snd]. unfold update_generation_progress.
    rewrite generation_set_generation.
    cbn [emit app GenerationState_merge keep kw_in_progress kw_progress
         kw_last_error].
    unfold GenerationState_merge. cbn. now rewrite G2, G3.
  - rewrite H4, List.length_app. cbn. lia.
Qed.

Lemma same_outside_generation_refl (w : World) : same_outside_generation w w.
Proof. unfold same_outside_generation. repeat split. Qed.

Lemma same_outside_generation_trans (w1 w2 w3 : World) :
  same_outside_generation w1 w2 -> same_outside_generation w2 w3 ->
  same_outside_generation w1 w3.
Proof.
  unfold same_outside_generation.
  intros (A1 & A2 & A3 & A4 & A5 & A6 & A7 & A8 & A9)
         (B1 & B2 & B3 & B4 & B5 & B6 & B7 & B8 & B9).
  repeat split; congruence.
Qed.

(** Whatever frames a session delivers, reading them writes the generation
    sub-record at most and emits generation signals only. *)
Lemma read_frames_footprint (frames : list Loads) (w : World) :
  same_outside_generation w (snd (read frames w))
  /\ exists l : list Signal,
       emitted (snd (read frames w)) = emitted w ++ l
       /\ forallb is_generation_signal l = true.
Proof.
  revert w. induction frames as [| raw frames IH]; intro w.
  - cbn. split; [apply same_outside_generation_refl |].
    exists (@nil Signal). split; [now rewrite app_nil_r | reflexivity].
  - cbn [read_frames]. unfold bind.
    destruct (handle_footprint raw w) as (Hs & l & Hl & Hg).
    destruct (handle raw w) as [[[] | e |] w1]; cbn [snd] in *.
    + destruct (IH w1) as (Hs' & l' & Hl' & Hg').
      split; [now apply (same_outside_generation_trans w w1) |].
      exists (l ++ l'). split.
      * now rewrite Hl', Hl, app_assoc.
      * now rewrite forallb_app, Hg, Hg'.
    + split; [exact Hs |]. now exists l.
    + split; [exact Hs |]. now exists l.
Qed.

Lemma ignored_frames_are_read (frames : list Loads) (w : World) :
  forallb ignored_frame frames = true ->
  read frames w = (Return tt, w).
Proof.
  induction frames as [| raw frames IH]; intro H; [reflexivity |].
  cbn [forallb] in H. apply andb_prop in H. destruct H as [Hr Hf].
  cbn [read_frames]. unfold bind. rewrite (handle_ignored raw w Hr).
  now apply IH.
Qed.

(** X1: frames on which [json.loads] raises [JSONDecodeError], and objects
    whose [type] is missing or is none of [progress], [preview], [error],
    [completed] (a [ping], a [status]), are dropped: put before or after
    the other frames of a session, they change neither the outcome nor the
    state the read loop reaches.  A frame on which [json.loads] raises
    anything else is not dropped: the exception leaves the handler and the
    reading stops there. *)
Theorem ignored_frames_change_nothing
    (skipped frames : list Loads) (text : string) (w : World) :
  forallb ignored_frame skipped = true ->
  read (skipped ++ frames) w = read frames w
  /\ match read frames w with
     | (Return _, w1) => read (frames ++ skipped) w = (Return tt, w1)
     | other => read (frames ++ skipped) w = other
     end
  /\ read (skipped ++ LoadsFailed text :: frames) w = (Raise (LoadsError text), w).
Proof.
  intro H. split; [| split].
  - rewrite read_frames_app. now rewrite (ignored_frames_are_read skipped w H).
  - rewrite read_frames_app.
    destruct (read frames w) as [[[] | e |] w1]; try reflexivity.
    now apply ignored_frames_are_read.
  - rewrite read_frames_app. now rewrite (ignored_frames_are_read skipped w H).
Qed.

(** An error frame whose [error] is [null]: the signal is emitted with
    [None] and [fail_generation(None)] leaves no error text. *)
Example error_frame_with_null (w : World) :
  handle (Decoded (PDict [("type", PStr "error"); ("error", PNone)])) w
  = (Return tt, fail_generation_value None (emit generation_failed_none w))
  /\ generation (app (snd (handle (Decoded (PDict [("type", PStr "error");
                                                   ("error", PNone)])) w)))
     = mkGenerationState false (progress (generation (app w))) None.
Proof. split; reflexivity. Qed.

End Handler.

(* ================================================================== *)
(** * The read loop of the realtime channel *)
(* ================================================================== *)

Section ReadLoopFacts.

Import AppState.

Variable float_of_int : Z -> option float.
Variable float_of_text : string -> option float.

Local Abbreviation read := (read_frames float_of_int float_of_text).
Local Abbreviation run := (_run float_of_int float_of_text).

Lemma generation_signals_are_channel_signals (l : list Signal) :
  forallb is_generation_signal l = true -> forallb is_channel_signal l = true.
Proof.
  induction l as [| s l IH]; cbn [forallb]; [reflexivity |].
  intro H. apply andb_prop in H. destruct H as [Hs Hl].
  unfold is_channel_signal at 1. now rewrite Hs, IH.
Qed.

Lemma generation_signals_are_no_disconnect (l : list Signal) :
  forallb is_generation_signal l = true ->
  count_signal is_backend_disconnected l = 0.
Proof.
  induction l as [| s l IH]; cbn [forallb]; [reflexivity |].
  intro H. apply andb_prop in H. destruct H as [Hs Hl].
  unfold count_signal in *. cbn [filter].
  destruct s; try discriminate Hs; cbn; now apply IH.
Qed.

Lemma read_keeps_disconnect_count (frames : list Loads) (w : World) :
  count_signal is_backend_disconnected (emitted (snd (read frames w)))
  = count_signal is_backend_disconnected (emitted w).
Proof.
  destruct (read_frames_footprint float_of_int float_of_text frames w)
    as (_ & l & Hl & Hg).
  rewrite Hl, count_signal_app, (generation_signals_are_no_disconnect l Hg). lia.
Qed.

(** X8: the loop emits [backend_disconnected] exactly when it enters its
    [except Exception] clause, and each time it then starts the sleep of two
    seconds: over any script, the disconnect signals emitted and the sleeps
    begun are equal in number. *)
Theorem one_backoff_per_disconnect (script : list Turn) (naps : nat) (w : World) :
  count_signal is_backend_disconnected (emitted (snd (run script naps w))) + naps
  = count_signal is_backend_disconnected (emitted w) + snd (fst (run script naps w)).
Proof.
  revert naps w. induction script as [| [a c] script IH]; intros naps w.
  - cbn. lia.
  - cbn [_run attempt nap_cancelled].
    assert (Hre : forall v : World,
               count_signal is_backend_disconnected (emitted v)
               = count_signal is_backend_disconnected (emitted w) ->
               count_signal is_backend_disconnected
                 (emitted (snd (reconnect_after_error c (run script) naps v))) + naps
               = count_signal is_backend_disconnected (emitted w)
                 + snd (fst (reconnect_after_error c (run script) naps v))).
    { intros v Hv. unfold reconnect_after_error. destruct c.
      - cbn [snd fst emit emitted]. rewrite count_signal_app, Hv. cbn. lia.
      - specialize (IH (S naps) (emit backend_disconnected v)).
        cbn [emit emitted] in IH. rewrite count_signal_app, Hv in IH.
        cbn in IH. lia. }
    destruct a as [| | frames fin].
    + now apply Hre.
    + cbn. lia.
    + pose proof (read_keeps_disconnect_count frames (emit backend_connected w)) as Hr.
      cbn [emit emitted] in Hr. rewrite count_signal_app in Hr. cbn in Hr.
      rewrite Nat.add_0_r in Hr.
      destruct (read frames (emit backend_connected w)) as [[[] | e |] w1];
        cbn [snd] in Hr.
      * destruct fin.
        -- specialize (IH naps w1). lia.
        -- now apply Hre.
        -- cbn. lia.
      * now apply Hre.
      * cbn. lia.
Qed.

(** X3: the read loop writes the generation sub-record at most.  Over any
    script the other four domains of the store, the connection flag of the
    job client, the credentials and the request log are as before, and
    every signal emitted is a generation signal or one of
    [backend_connected] and [backend_disconnected]. *)
Theorem read_loop_footprint (script : list Turn) (naps : nat) (w : World) :
  same_outside_generation w (snd (run script naps w))
  /\ exists l : list Signal,
       emitted (snd (run script naps w)) = emitted w ++ l
       /\ forallb is_channel_signal l = true.
Proof.
  revert naps w. induction script as [| [a c] script IH]; intros naps w.
  - cbn. split; [apply same_outside_generation_refl |].
    exists (@nil Signal). split; [now rewrite app_nil_r | reflexivity].
  - cbn [_run attempt nap_cancelled].
    assert (Hre : forall (v : World) (l : list Signal),
               same_outside_generation w v ->
               emitted v = emitted w ++ l ->
               forallb is_channel_signal l = true ->
               same_outside_generation w
                 (snd (reconnect_after_error c (run script) naps v))
               /\ exists l' : list Signal,
                    emitted (snd (reconnect_after_error c (run script) naps v))
                    = emitted w ++ l'
                    /\ forallb is_channel_signal l' = true).
    { intros v l Hs Hl Hc. unfold reconnect_after_error. destruct c.
      - cbn [snd emit emitted]. split.
        + apply (same_outside_generation_trans w v); [exact Hs |].
          unfold same_outside_generation. repeat split.
        + exists (l ++ [backend_disconnected]). split.
          * now rewrite Hl, app_assoc.
          * now rewrite forallb_app, Hc.
      - destruct (IH (S naps) (emit backend_disconnected v)) as (Hs' & l' & Hl' & Hc').
        split.
        + apply (same_outside_generation_trans w (emit backend_disconnected v));
            [| exact Hs'].
          apply (same_outside_generation_trans w v); [exact Hs |].
          unfold same_outside_generation. repeat split.
        + exists (l ++ backend_disconnected :: l'). split.
          * rewrite Hl'. cbn [emit emitted]. rewrite Hl.
            now rewrite <- !app_assoc.
          * rewrite forallb_app. cbn [forallb]. now rewrite Hc, Hc'. }
    assert (Hnil : emitted w = emitted w ++ []) by now rewrite app_nil_r.
    destruct a as [| | frames fin].
    + apply (Hre w []); [apply same_outside_generation_refl | exact Hnil | reflexivity].
    + cbn. split; [apply same_outside_generation_refl |].
      exists (@nil Signal). now split.
    + destruct (read_frames_footprint float_of_int float_of_text frames
                  (emit backend_connected w)) as (Hs & l & Hl & Hg).
      cbn [emit emitted] in Hl.
      assert (Hs0 : same_outside_generation w
                      (snd (read frames (emit backend_connected w)))).
      { apply (same_outside_generation_trans w (emit backend_connected w));
          [| exact Hs]. unfold same_outside_generation. repeat split. }
      assert (Hl0 : emitted (snd (read frames (emit backend_connected w)))
                    = emitted w ++ backend_connected :: l)
        by now rewrite Hl, <- app_assoc.
      assert (Hc0 : forallb is_channel_signal (backend_connected :: l) = true).
      { cbn [forallb]. now rewrite (generation_signals_are_channel_signals l Hg). }
      clear Hs Hl.
      destruct (read frames (emit backend_connected w)) as [[[] | e |] w1];
        cbn [snd] in Hs0, Hl0.
      * destruct fin.
        -- destruct (IH naps w1) as (Hs' & l' & Hl' & Hc').
           split; [now apply (same_outside_generation_trans w w1) |].
           exists ((backend_connected :: l) ++ l'). split.
           ++ now rewrite Hl', Hl0, <- app_assoc.
           ++ now rewrite forallb_app, Hc0, Hc'.
        -- now apply (Hre w1 (backend_connected :: l)).
        -- cbn [snd]. split; [exact Hs0 |]. now exists (backend_connected :: l).
      * now apply (Hre w1 (backend_connected :: l)).
      * cbn [snd]. split; [exact Hs0 |]. now exists (backend_connected :: l).
Qed.

(** X9: a peer that closes each session cleanly is reconnected to at once.
    Over a script of such passes, with ignored frames only, the loop emits
    one [backend_connected] per pass and nothing else: no
    [backend_disconnected], no sleep, no write to the store. *)
Theorem clean_close_reconnects_at_once (script : list Turn) (naps : nat) (w : World) :
  forallb clean_turn script = true ->
  fst (run script naps w) = (Waiting, naps)
  /\ app (snd (run script naps w)) = app w
  /\ emitted (snd (run script naps w))
     = emitted w ++ repeat backend_connected (List.length script).
Proof.
  revert w. induction script as [| [a c] script IH]; intros w H.
  - cbn. repeat split. now rewrite app_nil_r.
  - cbn [forallb] in H. apply andb_prop in H. destruct H as [Ht Hs].
    unfold clean_turn in Ht. cbn [attempt] in Ht.
    destruct a as [| | frames fin]; try discriminate Ht.
    destruct fin; try discriminate Ht.
    cbn [_run attempt nap_cancelled].
    rewrite (ignored_frames_are_read float_of_int float_of_text frames _ Ht).
    destruct (IH (emit backend_connected w) Hs) as (H1 & H2 & H3).
    rewrite H1, H2, H3. repeat split.
    cbn [emit emitted List.length repeat]. now rewrite <- app_assoc.
Qed.

(** X10: a frame that is JSON but no object ends its session.  The frames
    handled before it keep their effect, the frames that follow it in the
    session are never handled, and the loop emits [backend_disconnected],
    sleeps and goes on with the next pass from the state reached just
    before that frame. *)
Theorem non_object_frame_ends_session
    (pre post : list Loads) (data : pyval) (fin : SessionEnd)
    (rest : list Turn) (naps : nat) (w w1 : World) :
  read pre (emit backend_connected w) = (Return tt, w1) ->
  is_dict data = false ->
  run (mkTurn (Session (pre ++ Decoded data :: post) fin) false :: rest) naps w
  = run rest (S naps) (emit backend_disconnected w1).
Proof.
  intros Hpre Hdata. cbn [_run attempt nap_cancelled].
  rewrite read_frames_app, Hpre. cbn [read_frames]. unfold bind.
  destruct data; try reflexivity. discriminate Hdata.
Qed.

End ReadLoopFacts.

(* ================================================================== *)
(** * The life of a streaming job *)
(* ================================================================== *)

Section JobFacts.

Import AppState.

Variable float_of_int : Z -> option float.
Variable float_of_text : string -> option float.
Variable str_exc : Exception -> string.

Local Abbreviation handle_stream :=
  (_handle_stream_message float_of_int float_of_text).
Local Abbreviation stream := (_run_generation_stream float_of_int float_of_text).
Local Abbreviation gen := (generate float_of_int float_of_text str_exc).
Local Abbreviation wake := (generate_wake float_of_int float_of_text str_exc).

(** A stream message changes the progress at most, and the handler of the
    stream is never cancelled. *)
Lemma handle_stream_footprint (message : pyval) (w : World) :
  in_progress (generation (app (snd (handle_stream message w))))
  = in_progress (generation (app w))
  /\ last_error (generation (app (snd (handle_stream message w))))
     = last_error (generation (app w))
  /\ fst (handle_stream message w) <> CancelledError.
Proof.
  open_handler. branches; cbn; repeat split; discriminate.
Qed.

(** The stream loop, as far as it runs: [in_progress] and [last_error] are
    kept, the loop is not cancelled from within, and what it returns at the
    end of the stream is the final metadata. *)
Lemma stream_footprint (items : list StreamItem) (w : World) :
  in_progress (generation (app (snd (stream items w))))
  = in_progress (generation (app w))
  /\ last_error (generation (app (snd (stream items w))))
     = last_error (generation (app w))
  /\ fst (stream items w) <> Ended CancelledError
  /\ forall r, fst (stream items w) = Ended (Return r) -> r = final_metadata.
Proof.
  revert w. induction items as [| [| message] items IH]; intro w.
  - cbn. repeat split; [discriminate | intros r H; now inversion H].
  - cbn. repeat split; discriminate.
  - cbn [_run_generation_stream].
    destruct (handle_stream_footprint message w) as (H1 & H2 & H3).
    destruct (handle_stream message w) as [[[] | e |] w1]; cbn [fst snd] in *.
    + destruct (IH w1) as (G1 & G2 & G3 & G4).
      rewrite G1, G2. repeat split; assumption.
    + repeat split; try assumption; discriminate.
    + now elim H3.
Qed.

(** X13: how a wake-up of a job that waits on its stream can end.  The job
    suspends again with [in_progress] and [last_error] untouched; or it
    returns the final metadata and the store is at [in_progress] false,
    progress [1.0]; or it raises and the store is at [in_progress] false
    with the exception's text as [last_error]; or it was cancelled and the
    store is as before.  Unless cancelled, a job that ends never leaves the
    store in progress. *)
Theorem job_wakeup_outcomes (k : Wake) (rest : list StreamItem) (w : World) :
  match wake k (AwaitStream rest) w with
  | (AwaitStream _, w') =>
      k = Resume
      /\ in_progress (generation (app w')) = in_progress (generation (app w))
      /\ last_error (generation (app w')) = last_error (generation (app w))
  | (Finished (Return r), w') =>
      k = Resume /\ r = final_metadata
      /\ generation (app w')
         = mkGenerationState false 1 (last_error (generation (app w)))
  | (Finished (Raise e), w') =>
      k <> Cancel
      /\ in_progress (generation (app w')) = false
      /\ last_error (generation (app w')) = Some (str_exc e)
  | (Finished CancelledError, w') => k = Cancel /\ app w' = app w
  | (AwaitChannelReady _, _) => False
  end.
Proof.
  destruct k as [| e |]; cbn [generate_wake generate_try].
  - destruct (stream_footprint rest w) as (H1 & H2 & H3 & H4).
    destruct (stream rest w) as [[rest' | [r | e |]] w1]; cbn [fst snd] in *.
    + now repeat split.
    + repeat split. now apply H4.
      unfold finish_generation. rewrite generation_set_generation.
      unfold GenerationState_merge. cbn. now rewrite H2.
    + repeat split. discriminate.
    + now elim H3.
  - repeat split. discriminate.
  - now split.
Qed.

(** While a job waits, the store shows it: at a suspension in the channel's
    start or in the stream, the latter with [in_progress] true and no
    error. *)
Lemma in_flight_connected (request : pyval) (w : World) :
  match generate_connected float_of_int float_of_text str_exc request w with
  | (AwaitStream _, w') =>
      in_progress (generation (app w')) = true
      /\ last_error (generation (app w')) = None
  | _ => True
  end.
Proof.
  unfold generate_connected.
  destruct (stream_footprint (_fake_stream request)
              (start_generation (emit generation_started w)))
    as (H1 & H2 & _).
  destruct (stream (_fake_stream request)
              (start_generation (emit generation_started w)))
    as [[rest' | [r | e |]] w1]; cbn [generate_try fst snd] in *;
    try exact I.
  now split.
Qed.

Lemma in_flight_wake (t : GenTask) (w : World) :
  match t with
  | AwaitStream _ =>
      in_progress (generation (app w)) = true
      /\ last_error (generation (app w)) = None
  | _ => True
  end ->
  match wake Resume t w with
  | (AwaitStream _, w') =>
      in_progress (generation (app w')) = true
      /\ last_error (generation (app w')) = None
  | _ => True
  end.
Proof.
  intro H. destruct t as [request | rest | o]; cbn [generate_wake].
  - apply in_flight_connected.
  - destruct (stream_footprint rest w) as (H1 & H2 & _).
    destruct (stream rest w) as [[rest' | [r | e |]] w1];
      cbn [generate_try fst snd] in *; try exact I.
    destruct H as [Hp He]. now rewrite H1, H2.
  - exact I.
Qed.

Lemma in_flight_resume_n (n : nat) (request : pyval) (w : World) :
  match resume_n (wake Resume) n (gen request w) with
  | (AwaitStream _, w') =>
      in_progress (generation (app w')) = true
      /\ last_error (generation (app w')) = None
  | _ => True
  end.
Proof.
  induction n as [| n IH]; cbn [resume_n].
  - unfold generate. destruct (grpc_connected w); [apply in_flight_connected | exact I].
  - destruct (resume_n (wake Resume) n (gen request w)) as [t w1].
    apply in_flight_wake. destruct t; try exact I. exact IH.
Qed.

(** X12: in a run of [generate] alone, where nothing else writes the
    store between its wake-ups (no frame of the realtime channel is
    handled, no second call), a call that is suspended in its stream after
    any number of wake-ups finds the store at [in_progress] true and
    [last_error] [None], whatever the store held before the call. *)
Theorem store_in_progress_while_streaming
    (n : nat) (request : pyval) (w : World) (rest : list StreamItem) :
  fst (resume_n (wake Resume) n (gen request w)) = AwaitStream rest ->
  in_progress (generation (app (snd (resume_n (wake Resume) n (gen request w)))))
  = true
  /\ last_error (generation (app (snd (resume_n (wake Resume) n (gen request w)))))
     = None.
Proof.
  intro H. pose proof (in_flight_resume_n n request w) as P.
  destruct (resume_n (wake Resume) n (gen request w)) as [t w1].
  cbn [fst snd] in *. subst t. exact P.
Qed.

(** X11: a [generate] call that nothing interrupts runs to its end: ten
    wake-ups on a connected client, one more when the channel had to be
    opened first.  It returns the final metadata, leaves the client
    connected and the store at [in_progress] false, progress [1.0], no
    error, whatever the store held before, and has announced ten progress
    values. *)
Theorem generate_runs_to_completion (request : pyval) (w : World) :
  let n := if grpc_connected w then 10 else 11 in
  fst (resume_n (wake Resume) n (gen request w)) = Finished (Return final_metadata)
  /\ generation (app (snd (resume_n (wake Resume) n (gen request w))))
     = mkGenerationState false 1 None
  /\ grpc_connected (snd (resume_n (wake Resume) n (gen request w))) = true
  /\ count_signal is_generation_progress
       (emitted (snd (resume_n (wake Resume) n (gen request w))))
     = count_signal is_generation_progress (emitted w) + 10.
Proof.
  unfold generate. destruct (grpc_connected w) eqn:Hc; cbn -[count_signal].
  - unfold grpc_connected in Hc. repeat split; try exact Hc.
    rewrite <- !app_assoc, count_signal_app. cbn. lia.
  - repeat split.
    rewrite <- !app_assoc, count_signal_app. cbn. lia.
Qed.

(** X14: an error message in the stream fails the job.  [generate] raises
    [RuntimeError] on the [error] field ([None] when the message has none),
    emits [generation_failed] and stores the exception's text as
    [last_error]; what follows in the stream is not consumed. *)
Theorem stream_error_fails_the_job
    (d : list (string * pyval)) (rest : list StreamItem) (w : World) :
  dict_get d "type" = Some (PStr "error") ->
  let exc := RuntimeError (match dict_get d "error" with
                           | Some v => v
                           | None => PNone
                           end) in
  wake Resume (AwaitStream (Yield (PDict d) :: rest)) w
  = (Finished (Raise exc),
     fail_generation (str_exc exc) (emit (generation_failed (str_exc exc)) w)).
Proof.
  intros Ht exc. subst exc.
  cbn [generate_wake _run_generation_stream].
  open_handler. rewrite Ht. cbn.
  destruct (dict_get d "error"); reflexivity.
Qed.

(** X15: a call that cannot open the channel is not a failed generation.
    On a client that is not connected [generate] makes the channel handle
    and waits for the channel; when that fails or is cancelled the
    exception goes to the caller, and but for the channel handle the state
    is the one before the call: nothing is emitted (no
    [generation_started], no [generation_failed]), the store is not
    written and the client is still not connected. *)
Theorem failed_connect_is_no_failed_generation
    (request : pyval) (e : Exception) (w : World) :
  grpc_connected w = false ->
  gen request w = (AwaitChannelReady request, with_grpc_channel ChannelIdle w)
  /\ wake (Throw e) (fst (gen request w)) (snd (gen request w))
     = (Finished (Raise e), with_grpc_channel ChannelIdle w)
  /\ wake Cancel (fst (gen request w)) (snd (gen request w))
     = (Finished CancelledError, with_grpc_channel ChannelIdle w)
  /\ app (with_grpc_channel ChannelIdle w) = app w
  /\ emitted (with_grpc_channel ChannelIdle w) = emitted w
  /\ grpc_connected (with_grpc_channel ChannelIdle w) = false.
Proof.
  intro Hc. unfold generate. rewrite Hc. now repeat split.
Qed.

End JobFacts.

(* ================================================================== *)
(** * More on credentials and the REST client *)
(* ================================================================== *)

Section Credentials.

Import AppState.

(** The request of the exchange step, as sent from [w]. *)
Local Abbreviation refresh_request w :=
  (mkRequest "POST" "/auth/refresh"
     (Some (PDict [("refresh_token", refresh_token w)]))
     (authenticated (user (app w)))).

(** One turn that goes through, with the state it leaves. *)
Lemma refresh_loop_turn_ok_state (o : HttpOutcome) (rest : list Cycle) (w : World) :
  truthy (refresh_token w) = true ->
  exchange_succeeds o = true ->
  exists ms : Z,
    _refresh_loop (Tick o :: rest) w
    = _refresh_loop rest
        (with_access_token (token_of o)
           (emit (backend_latency_updated ms) (send (refresh_request w) w))).
Proof.
  intros Htok Hok.
  destruct o as [ms body | | | |]; try discriminate Hok.
  destruct body; try discriminate Hok.
  exists ms. cbn [_refresh_loop]. rewrite Htok.
  cbv [negb bind lift act _request py_get token_of].
  destruct (dict_get d "access_token"); reflexivity.
Qed.

(** Any number of turns that go through. *)
Lemma refresh_loop_turns_ok (oks : list HttpOutcome) (rest : list Cycle) (w : World) :
  truthy (refresh_token w) = true ->
  forallb exchange_succeeds oks = true ->
  exists w1 : World,
    _refresh_loop (map Tick oks ++ rest) w = _refresh_loop rest w1
    /\ refresh_token w1 = refresh_token w
    /\ app w1 = app w
    /\ refresh_task w1 = refresh_task w
    /\ count_logged_out (emitted w1) = count_logged_out (emitted w)
    /\ requests w1 = requests w ++ repeat (refresh_request w) (List.length oks)
    /\ access_token w1 = fold_left (fun _ o => token_of o) oks (access_token w).
Proof.
  revert w. induction oks as [| o oks IH]; intros w Htok Hoks.
  - exists w. cbn. repeat split. now rewrite app_nil_r.
  - cbn [forallb] in Hoks. apply andb_prop in Hoks. destruct Hoks as [Ho Hoks].
    cbn [map List.app].
    destruct (refresh_loop_turn_ok_state o (map Tick oks ++ rest) w Htok Ho)
      as [ms Hstep].
    rewrite Hstep.
    destruct (IH (with_access_token (token_of o)
                    (emit (backend_latency_updated ms) (send (refresh_request w) w))))
      as (w1 & H0 & H1 & H2 & H3 & H4 & H5 & H6); [exact Htok | exact Hoks |].
    exists w1. split; [exact H0 |].
    cbn [with_access_token emit send refresh_token app refresh_task emitted
         requests access_token] in *.
    repeat split; try assumption.
    + rewrite H4, count_logged_out_app. cbn. lia.
    + rewrite H5. cbn [List.length repeat]. now rewrite <- app_assoc.
Qed.

(** X16: without a refresh token the loop does nothing.  Whatever the
    script, it sends no request, emits nothing and changes nothing, and it
    returns at the end of its first sleep. *)
Theorem refresh_loop_without_token (c : Cycle) (script : list Cycle) (w : World) :
  truthy (refresh_token w) = false ->
  snd (_refresh_loop script w) = w
  /\ _refresh_loop (c :: script) w = (Exited, w).
Proof.
  intro H. split.
  - destruct script as [| [| o] rest]; cbn [_refresh_loop]; [| | rewrite H];
      reflexivity.
  - destruct c; cbn [_refresh_loop]; [| rewrite H]; reflexivity.
Qed.

(** X17: while the exchange goes through the loop keeps sleeping, never
    changes the refresh token (a rotated one in the answer is ignored) nor
    the store, sends one [POST /auth/refresh] with the refresh token per
    turn, and holds as access token the [access_token] field of the last
    answer, [None] when that answer had none. *)
Theorem refresh_loop_keeps_refresh_token (oks : list HttpOutcome) (w : World) :
  truthy (refresh_token w) = true ->
  forallb exchange_succeeds oks = true ->
  fst (_refresh_loop (map Tick oks) w) = Sleeping
  /\ refresh_token (snd (_refresh_loop (map Tick oks) w)) = refresh_token w
  /\ app (snd (_refresh_loop (map Tick oks) w)) = app w
  /\ requests (snd (_refresh_loop (map Tick oks) w))
     = requests w ++ repeat (refresh_request w) (List.length oks)
  /\ access_token (snd (_refresh_loop (map Tick oks) w))
     = fold_left (fun _ o => token_of o) oks (access_token w).
Proof.
  intros Htok Hoks.
  destruct (refresh_loop_turns_ok oks [] w Htok Hoks)
    as (w1 & H0 & H1 & H2 & H3 & H4 & H5 & H6).
  rewrite app_nil_r in H0. rewrite H0. cbn [_refresh_loop fst snd].
  now repeat split.
Qed.

(** X18: a cancellation, in the sleep or in the exchange, ends the loop
    without a logout: no [user_logged_out], the refresh token, the task
    handle and the user record are kept. *)
Theorem refresh_loop_cancelled_quietly
    (oks : list HttpOutcome) (stop : Cycle) (rest : list Cycle) (w : World) :
  truthy (refresh_token w) = true ->
  forallb exchange_succeeds oks = true ->
  is_cancel stop = true ->
  fst (_refresh_loop (map Tick oks ++ stop :: rest) w) = Exited
  /\ count_logged_out (emitted (snd (_refresh_loop (map Tick oks ++ stop :: rest) w)))
     = count_logged_out (emitted w)
  /\ refresh_token (snd (_refresh_loop (map Tick oks ++ stop :: rest) w))
     = refresh_token w
  /\ refresh_task (snd (_refresh_loop (map Tick oks ++ stop :: rest) w))
     = refresh_task w
  /\ app (snd (_refresh_loop (map Tick oks ++ stop :: rest) w)) = app w.
Proof.
  intros Htok Hoks Hstop.
  destruct (refresh_loop_turns_ok oks (stop :: rest) w Htok Hoks)
    as (w1 & H0 & H1 & H2 & H3 & H4 & H5 & H6).
  rewrite H0.
  destruct stop as [| o]; [| destruct o; try discriminate Hstop];
    cbn [_refresh_loop].
  - now repeat split.
  - rewrite H1, Htok. cbv [negb bind lift act _request fst snd].
    cbn [send emitted refresh_token refresh_task app].
    now repeat split.
Qed.

(** What [_clear_auth_state] leaves behind. *)
Lemma clear_auth_state_fields (v : World) :
  access_token (_clear_auth_state v) = PNone
  /\ refresh_token (_clear_auth_state v) = PNone
  /\ refresh_task (_clear_auth_state v) = false
  /\ requests (_clear_auth_state v) = requests v
  /\ user (app (_clear_auth_state v))
     = mkUserState (user_id (user (app v))) None "free" false
  /\ generation (app (_clear_auth_state v)) = generation (app v)
  /\ count_logged_out (emitted (_clear_auth_state v))
     = count_logged_out (emitted v).
Proof.
  unfold _clear_auth_state. cbn.
  destruct (refresh_task v) eqn:E; cbn; repeat split; try assumption;
    rewrite <- app_assoc, count_logged_out_app; cbn; lia.
Qed.

(** X19: [logout] clears the session whatever the backend answers: a failed
    call is swallowed.  It sends one [POST /auth/logout], drops both tokens
    and the task handle, resets the user record but for its [user_id],
    emits [user_logged_out] once and leaves the generation sub-record
    alone.  Only a cancellation during the call keeps it from that: then
    nothing is cleared and no logout is emitted. *)
Theorem logout_clears_session (o : HttpOutcome) (w : World) :
  requests (snd (logout o w))
  = requests w ++ [mkRequest "POST" "/auth/logout" None
                     (authenticated (user (app w)))]
  /\ generation (app (snd (logout o w))) = generation (app w)
  /\ match o with
     | HttpCancelled =>
         fst (logout o w) = CancelledError
         /\ access_token (snd (logout o w)) = access_token w
         /\ refresh_token (snd (logout o w)) = refresh_token w
         /\ user (app (snd (logout o w))) = user (app w)
         /\ count_logged_out (emitted (snd (logout o w)))
            = count_logged_out (emitted w)
     | _ =>
         fst (logout o w) = Return tt
         /\ access_token (snd (logout o w)) = PNone
         /\ refresh_token (snd (logout o w)) = PNone
         /\ refresh_task (snd (logout o w)) = false
         /\ user (app (snd (logout o w)))
            = mkUserState (user_id (user (app w))) None "free" false
         /\ count_logged_out (emitted (snd (logout o w)))
            = S (count_logged_out (emitted w))
     end.
Proof.
  destruct o as [ms body | ms text | text | ms text |];
    unfold logout, _request; cbn [fst snd];
    match goal with
    | |- context [_clear_auth_state ?v] =>
        destruct (clear_auth_state_fields v) as (H1 & H2 & H3 & H4 & H5 & H6 & H7)
    | _ => idtac
    end;
    cbn [emit send emitted app access_token refresh_token refresh_task requests] in *;
    rewrite ?count_logged_out_app;
    repeat split; try assumption; try reflexivity;
    rewrite ?H7, ?count_logged_out_app; cbn; lia.
Qed.

(** X20: [health_check] swallows every failure of the request.  It
    answers [True] exactly on a 2xx answer with a JSON body and [False] on
    a status error, a request error and an undecodable body; no exception
    leaves it, only a cancellation during the request does.  It emits
    [backend_connected] exactly when it answers [True], and writes neither
    the store nor the credentials. *)
Theorem health_check_swallows_failures (o : HttpOutcome) (w : World) :
  fst (health_check o w)
  = match o with
    | HttpOk _ _ => Return true
    | HttpCancelled => CancelledError
    | _ => Return false
    end
  /\ count_signal is_backend_connected (emitted (snd (health_check o w)))
     = count_signal is_backend_connected (emitted w)
       + match o with HttpOk _ _ => 1 | _ => 0 end
  /\ app (snd (health_check o w)) = app w
  /\ access_token (snd (health_check o w)) = access_token w
  /\ refresh_token (snd (health_check o w)) = refresh_token w.
Proof.
  destruct o; unfold health_check, _request; cbn [fst snd emit send emitted];
    repeat split; rewrite ?count_signal_app; cbn; lia.
Qed.

End Credentials.

Section RestGenerationFacts.

Import AppState.

Variable str_exc : Exception -> string.

Local Abbreviation rest_generate := (generate_music str_exc).

(** X21: the REST generation call never writes the store.  It emits
    [generation_started] first; when it returns, its last signal is
    [generation_finished] with the result; when it raises, its last signal
    is [generation_failed] with the exception's text.  [in_progress],
    [progress] and [last_error] are those of before in either case. *)
Theorem generate_music_never_writes_store
    (payload : pyval) (o : HttpOutcome) (w : World) :
  app (snd (rest_generate payload o w)) = app w
  /\ exists tail : list Signal,
       emitted (snd (rest_generate payload o w))
       = emitted w ++ generation_started :: tail
       /\ match fst (rest_generate payload o w) with
          | Return r => exists l, tail = l ++ [generation_finished r]
          | Raise e => exists l, tail = l ++ [generation_failed (str_exc e)]
          | CancelledError => tail = []
          end.
Proof.
  unfold generate_music, _request, bind, emit_dict, lift, act, ret.
  destruct o as [ms body | ms text | text | ms text |];
    [destruct body | | | |];
    cbn [fst snd emit send emitted app];
    (split; [reflexivity |]);
    rewrite <- ?app_assoc; cbn [List.app];
    eexists; (split; [reflexivity |]);
    first [ reflexivity
          | now exists [backend_latency_updated ms]
          | now exists [backend_latency_updated ms; backend_error text]
          | now exists [backend_disconnected] ].
Qed.

End RestGenerationFacts.

(* ================================================================== *)
(** * Concrete runs *)
(* ================================================================== *)

Section Runs.

Import AppState.

Local Abbreviation handle0 := (_handle_message no_float_of_int no_float_of_text).
Local Abbreviation read0 := (read_frames no_float_of_int no_float_of_text).
Local Abbreviation run0 := (_run no_float_of_int no_float_of_text).
Local Abbreviation gen0 := (generate no_float_of_int no_float_of_text no_str_exc).
Local Abbreviation wake0 :=
  (generate_wake no_float_of_int no_float_of_text no_str_exc).

Lemma ignored_frames_change_nothing_witness :
  let skipped := [JSONDecodeError; Decoded (PDict [("type", PStr "ping")]);
                  Decoded (PDict [("type", PStr "status"); ("text", PStr "warm")]);
                  Decoded (PDict [("value", PFloat 0.9)])] in
  let frames := [progress_frame 0.25] in
  let w := start_generation world0 in
  forallb ignored_frame skipped = true
  /\ read0 (skipped ++ frames) w = read0 frames w
  /\ match read0 frames w with
     | (Return _, w1) => read0 (frames ++ skipped) w = (Return tt, w1)
     | other => read0 (frames ++ skipped) w = other
     end
  /\ read0 (skipped ++ LoadsFailed "bad utf-8" :: frames) w
     = (Raise (LoadsError "bad utf-8"), w).
Proof.
  split; [reflexivity |].
  apply (ignored_frames_change_nothing no_float_of_int no_float_of_text
           [JSONDecodeError; Decoded (PDict [("type", PStr "ping")]);
            Decoded (PDict [("type", PStr "status"); ("text", PStr "warm")]);
            Decoded (PDict [("value", PFloat 0.9)])]
           [progress_frame 0.25] "bad utf-8" (start_generation world0)).
  reflexivity.
Defined.

Lemma handler_raises_on_non_object_witness :
  is_dict (PList [PInt 1]) = false
  /\ handle0 (Decoded (PList [PInt 1])) (start_generation world0)
     = (Raise (AttributeError (PList [PInt 1])), start_generation world0).
Proof.
  split; [reflexivity |].
  apply (handler_raises_on_non_object no_float_of_int no_float_of_text
           (PList [PInt 1]) (start_generation world0)).
  reflexivity.
Defined.

Lemma error_frame_without_text_witness :
  let d := [("type", PStr "error")] in
  let w := update_generation_progress 0.5 (start_generation world0) in
  dict_get d "type" = Some (PStr "error")
  /\ dict_get d "error" = None
  /\ handle0 (Decoded (PDict d)) w
     = (Return tt,
        fail_generation "Unknown error"
          (emit (generation_failed "Unknown error") w))
  /\ generation (app (snd (handle0 (Decoded (PDict d)) w)))
     = mkGenerationState false (progress (generation (app w)))
                         (Some "Unknown error").
Proof.
  split; [reflexivity |]. split; [reflexivity |].
  apply (error_frame_without_text no_float_of_int no_float_of_text
           [("type", PStr "error")]
           (update_generation_progress 0.5 (start_generation world0)));
    reflexivity.
Defined.

Lemma handlers_agree_on_progress_and_preview_witness :
  let d := [("type", PStr "preview"); ("data", PDict [("audio_chunk", PBytes "...")])] in
  (dict_get d "type" = Some (PStr "progress")
   \/ dict_get d "type" = Some (PStr "preview"))
  /\ _handle_stream_message no_float_of_int no_float_of_text (PDict d) world0
     = handle0 (Decoded (PDict d)) world0.
Proof.
  split; [right; reflexivity |].
  apply (handlers_agree_on_progress_and_preview no_float_of_int no_float_of_text
           [("type", PStr "preview");
            ("data", PDict [("audio_chunk", PBytes "...")])] world0).
  right. reflexivity.
Defined.

Lemma clean_close_reconnects_at_once_witness :
  let script := [mkTurn (Session [] PeerClosed) false;
                 mkTurn (Session [JSONDecodeError] PeerClosed) false;
                 mkTurn (Session [] PeerClosed) true] in
  forallb clean_turn script = true
  /\ fst (run0 script 0 world0) = (Waiting, 0)
  /\ app (snd (run0 script 0 world0)) = app world0
  /\ emitted (snd (run0 script 0 world0))
     = emitted world0 ++ repeat backend_connected (List.length script).
Proof.
  split; [reflexivity |].
  apply (clean_close_reconnects_at_once no_float_of_int no_float_of_text
           [mkTurn (Session [] PeerClosed) false;
            mkTurn (Session [JSONDecodeError] PeerClosed) false;
            mkTurn (Session [] PeerClosed) true] 0 world0).
  reflexivity.
Defined.

Lemma non_object_frame_ends_session_witness :
  let pre := [Decoded (PDict [("type", PStr "ping")]); progress_frame 0.5] in
  let post := [Decoded (PDict [("type", PStr "completed")])] in
  let w := start_generation world0 in
  let w1 := update_generation_progress 0.5
              (emit (generation_progress 0.5) (emit backend_connected w)) in
  read0 pre (emit backend_connected w) = (Return tt, w1)
  /\ is_dict (PStr "hello") = false
  /\ run0 [mkTurn (Session (pre ++ Decoded (PStr "hello") :: post) PeerClosed) false] 0 w
     = run0 [] 1 (emit backend_disconnected w1).
Proof.
  split; [reflexivity |]. split; [reflexivity |].
  apply (non_object_frame_ends_session no_float_of_int no_float_of_text
           [Decoded (PDict [("type", PStr "ping")]); progress_frame 0.5]
           [Decoded (PDict [("type", PStr "completed")])]
           (PStr "hello") PeerClosed [] 0 (start_generation world0)
           (update_generation_progress 0.5
              (emit (generation_progress 0.5)
                 (emit backend_connected (start_generation world0)))));
    reflexivity.
Defined.

Lemma store_in_progress_while_streaming_witness :
  let w := fail_generation "old" world0 in
  fst (resume_n (wake0 Resume) 4 (gen0 PNone w))
  = AwaitStream (skipn 7 (_fake_stream PNone))
  /\ in_progress (generation (app (snd (resume_n (wake0 Resume) 4 (gen0 PNone w)))))
     = true
  /\ last_error (generation (app (snd (resume_n (wake0 Resume) 4 (gen0 PNone w)))))
     = None.
Proof.
  split; [reflexivity |].
  apply (store_in_progress_while_streaming no_float_of_int no_float_of_text
           no_str_exc 4 PNone (fail_generation "old" world0)
           (skipn 7 (_fake_stream PNone))).
  reflexivity.
Defined.

Lemma stream_error_fails_the_job_witness :
  let d := [("type", PStr "error"); ("error", PStr "out of memory")] in
  let w := start_generation (with_grpc_connected true world0) in
  let exc := RuntimeError (match dict_get d "error" with
                           | Some v => v
                           | None => PNone
                           end) in
  dict_get d "type" = Some (PStr "error")
  /\ wake0 Resume (AwaitStream [Yield (PDict d); Sleep]) w
     = (Finished (Raise exc),
        fail_generation (no_str_exc exc)
          (emit (generation_failed (no_str_exc exc)) w)).
Proof.
  split; [reflexivity |].
  apply (stream_error_fails_the_job no_float_of_int no_float_of_text no_str_exc
           [("type", PStr "error"); ("error", PStr "out of memory")] [Sleep]
           (start_generation (with_grpc_connected true world0))).
  reflexivity.
Defined.

Lemma failed_connect_is_no_failed_generation_witness :
  let e := RequestError "unreachable" in
  let w := fail_generation "old" world0 in
  grpc_connected w = false
  /\ gen0 PNone w = (AwaitChannelReady PNone, with_grpc_channel ChannelIdle w)
  /\ wake0 (Throw e) (fst (gen0 PNone w)) (snd (gen0 PNone w))
     = (Finished (Raise e), with_grpc_channel ChannelIdle w)
  /\ wake0 Cancel (fst (gen0 PNone w)) (snd (gen0 PNone w))
     = (Finished CancelledError, with_grpc_channel ChannelIdle w)
  /\ app (with_grpc_channel ChannelIdle w) = app w
  /\ emitted (with_grpc_channel ChannelIdle w) = emitted w
  /\ grpc_connected (with_grpc_channel ChannelIdle w) = false.
Proof.
  split; [reflexivity |].
  apply (failed_connect_is_no_failed_generation no_float_of_int no_float_of_text
           no_str_exc PNone (RequestError "unreachable")
           (fail_generation "old" world0)).
  reflexivity.
Defined.

Lemma refresh_loop_without_token_witness :
  let c := Tick (HttpOk 5 (PDict [("access_token", PStr "a")])) in
  let script := [CancelInSleep] in
  let w := _start_token_refresh_loop world0 in
  truthy (refresh_token w) = false
  /\ snd (_refresh_loop script w) = w
  /\ _refresh_loop (c :: script) w = (Exited, w).
Proof.
  split; [reflexivity |].
  apply (refresh_loop_without_token
           (Tick (HttpOk 5 (PDict [("access_token", PStr "a")])))
           [CancelInSleep] (_start_token_refresh_loop world0)).
  reflexivity.
Defined.

Lemma refresh_loop_keeps_refresh_token_witness :
  let w := _start_token_refresh_loop
             (with_refresh_token (PStr "r1") (with_access_token (PStr "a1") world0)) in
  let oks := [HttpOk 12 (PDict [("access_token", PStr "a2");
                               ("refresh_token", PStr "r2")]);
              HttpOk 15 (PDict [("expires_in", PInt 600)])] in
  truthy (refresh_token w) = true
  /\ forallb exchange_succeeds oks = true
  /\ fst (_refresh_loop (map Tick oks) w) = Sleeping
  /\ refresh_token (snd (_refresh_loop (map Tick oks) w)) = refresh_token w
  /\ app (snd (_refresh_loop (map Tick oks) w)) = app w
  /\ requests (snd (_refresh_loop (map Tick oks) w))
     = requests w
       ++ repeat (mkRequest "POST" "/auth/refresh"
                    (Some (PDict [("refresh_token", refresh_token w)]))
                    (authenticated (user (app w))))
            (List.length oks)
  /\ access_token (snd (_refresh_loop (map Tick oks) w))
     = fold_left (fun _ o => token_of o) oks (access_token w).
Proof.
  split; [reflexivity |]. split; [reflexivity |].
  apply (refresh_loop_keeps_refresh_token
           [HttpOk 12 (PDict [("access_token", PStr "a2");
                              ("refresh_token", PStr "r2")]);
            HttpOk 15 (PDict [("expires_in", PInt 600)])]
           (_start_token_refresh_loop
              (with_refresh_token (PStr "r1")
                 (with_access_token (PStr "a1") world0))));
    reflexivity.
Defined.

Lemma refresh_loop_cancelled_quietly_witness :
  let w := _start_token_refresh_loop
             (with_refresh_token (PStr "r1") (with_access_token (PStr "a1") world0)) in
  let oks := [HttpOk 12 (PDict [("access_token", PStr "a2")])] in
  let stop := Tick HttpCancelled in
  let rest := [Tick (HttpStatus 3 "401 Unauthorized")] in
  truthy (refresh_token w) = true
  /\ forallb exchange_succeeds oks = true
  /\ is_cancel stop = true
  /\ fst (_refresh_loop (map Tick oks ++ stop :: rest) w) = Exited
  /\ count_logged_out (emitted (snd (_refresh_loop (map Tick oks ++ stop :: rest) w)))
     = count_logged_out (emitted w)
  /\ refresh_token (snd (_refresh_loop (map Tick oks ++ stop :: rest) w))
     = refresh_token w
  /\ refresh_task (snd (_refresh_loop (map Tick oks ++ stop :: rest) w))
     = refresh_task w
  /\ app (snd (_refresh_loop (map Tick oks ++ stop :: rest) w)) = app w.
Proof.
  split; [reflexivity |]. split; [reflexivity |]. split; [reflexivity |].
  apply (refresh_loop_cancelled_quietly
           [HttpOk 12 (PDict [("access_token", PStr "a2")])]
           (Tick HttpCancelled)
           [Tick (HttpStatus 3 "401 Unauthorized")]
           (_start_token_refresh_loop
              (with_refresh_token (PStr "r1")
                 (with_access_token (PStr "a1") world0))));
    reflexivity.
Defined.

End Runs.

(* ================================================================== *)
(** * The authorization header *)
(* ================================================================== *)

Section AuthHeaderFacts.

Variable format_value : pyval -> string.

Lemma headers_get_set_same (h : Headers) (key value : string) :
  headers_get (headers_set h key value) key = Some value.
Proof.
  induction h as [| [k v] h IH]; cbn.
  - now rewrite String.eqb_refl.
  - destruct (String.eqb k key) eqn:E; cbn.
    + now rewrite String.eqb_refl.
    + now rewrite E.
Qed.

Lemma headers_get_set_other (h : Headers) (key value other : string) :
  other <> key ->
  headers_get (headers_set h key value) other = headers_get h other.
Proof.
  intro Hne. induction h as [| [k v] h IH]; cbn.
  - destruct (String.eqb key other) eqn:E; [| reflexivity].
    apply String.eqb_eq in E. now elim Hne.
  - destruct (String.eqb k key) eqn:E; cbn.
    + apply String.eqb_eq in E. subst k.
      destruct (String.eqb key other) eqn:E'; [| reflexivity].
      apply String.eqb_eq in E'. now elim Hne.
    + destruct (String.eqb k other); [reflexivity | exact IH].
Qed.

Lemma headers_set_length (h : Headers) (key value : string) :
  List.length (headers_set h key value)
  = match headers_get h key with
    | Some _ => List.length h
    | None => S (List.length h)
    end.
Proof.
  induction h as [| [k v] h IH]; cbn; [reflexivity |].
  destruct (String.eqb k key); cbn; [reflexivity |].
  rewrite IH. now destruct (headers_get h key).
Qed.

(** X22: [inject_auth_header] with an access token that is a non-empty
    string sets [Authorization] to ["Bearer "] followed by the token,
    replacing a value that was there, and leaves every other header as it
    was; it adds at most this one entry.  Without a token ([None] or the
    empty string) the headers come back unchanged, so a stale
    [Authorization] is not removed. *)
Theorem inject_auth_header_sets_bearer
    (headers : Headers) (w : World) (token other : string) :
  other <> "Authorization" ->
  token <> "" ->
  headers_get
    (inject_auth_header format_value headers (with_access_token (PStr token) w))
    "Authorization"
  = Some (String.append "Bearer " token)
  /\ headers_get
       (inject_auth_header format_value headers (with_access_token (PStr token) w))
       other
     = headers_get headers other
  /\ List.length
       (inject_auth_header format_value headers (with_access_token (PStr token) w))
     = match headers_get headers "Authorization" with
       | Some _ => List.length headers
       | None => S (List.length headers)
       end
  /\ inject_auth_header format_value headers (with_access_token PNone w) = headers
  /\ inject_auth_header format_value headers (with_access_token (PStr "") w)
     = headers.
Proof.
  intros Hother Hne. unfold inject_auth_header.
  cbn [with_access_token access_token truthy].
  assert (E : String.eqb token "" = false) by now apply String.eqb_neq.
  rewrite E. cbn [negb String.eqb].
  split; [apply headers_get_set_same |].
  split; [now apply headers_get_set_other |].
  split; [apply headers_set_length |]. now split.
Qed.

End AuthHeaderFacts.

Lemma inject_auth_header_sets_bearer_witness :
  let headers := [("Content-Type", "application/json");
                  ("Authorization", "Bearer old"); ("X-Client", "nosis-desktop")] in
  "X-Client" <> "Authorization"
  /\ "abc" <> ""
  /\ headers_get
       (inject_auth_header (fun _ => "") headers
          (with_access_token (PStr "abc") world0))
       "Authorization"
     = Some (String.append "Bearer " "abc")
  /\ headers_get
       (inject_auth_header (fun _ => "") headers
          (with_access_token (PStr "abc") world0))
       "X-Client"
     = headers_get headers "X-Client"
  /\ List.length
       (inject_auth_header (fun _ => "") headers
          (with_access_token (PStr "abc") world0))
     = match headers_get headers "Authorization" with
       | Some _ => List.length headers
       | None => S (List.length headers)
       end
  /\ inject_auth_header (fun _ => "") headers (with_access_token PNone world0)
     = headers
  /\ inject_auth_header (fun _ => "") headers (with_access_token (PStr "") world0)
     = headers.
Proof.
  split; [discriminate |]. split; [discriminate |].
  apply (inject_auth_header_sets_bearer (fun _ => "")
           [("Content-Type", "application/json");
            ("Authorization", "Bearer old"); ("X-Client", "nosis-desktop")]
           world0 "abc" "X-Client"); discriminate.
Defined.
